(** * Matchmaking queue of the tic-tac-toe lambdas

    A shallow embedding of the lambda handlers under [aws/lambda]
    ([connection.py], [joinQueue.py], [disconnect.py], [gameOver.py],
    [streamDB.py]) over a model of the DynamoDB table they share, and the
    properties of the matchmaking state machine proved about them. *)

From Stdlib Require Import Ascii.
From stdpp Require Import gmap strings list fin_maps sorting.

Local Open Scope string_scope.
Local Open Scope nat_scope.

(** ** Data model *)

(** One record of the table.  The primary key [connectionId] is the key of
    the map below; the remaining attributes are the ones the handlers read
    and write.  [marker] and [joinedAt] are optional attributes: the
    handlers read them with [item.get(..., "")]. *)
Record Item := mkItem {
  sessionId : string;
  status : string;
  marker : option string;
  joinedAt : option string;
  username : option string
}.

#[global] Instance Item_eq_dec : EqDecision Item.
Proof. solve_decision. Defined.

(** The DynamoDB table [utility.table], keyed by [connectionId]. *)
Abbreviation Table := (gmap string Item).

(** A row as a handler sees it: the key together with the attributes. *)
Abbreviation Row := (string * Item)%type.

Definition row_joinedAt (r : Row) : string := default "" (joinedAt r.2).

(** ** Exceptions and the handler monad *)

Inductive exn :=
| ClientError (code : string)
| NameError (name : string)
| SlotsFull
| TypeError (message : string).

Inductive result (A : Type) :=
| Ok (a : A)
| Raise (e : exn).
Arguments Ok {A} a.
Arguments Raise {A} e.

(** A computation reads and writes the table and either returns or raises.
    Writes made before an exception stay: the table has no transactions. *)
Definition M (A : Type) : Type := Table -> Table * result A.

Definition ret {A} (a : A) : M A := fun t => (t, Ok a).

Definition raise {A} (e : exn) : M A := fun t => (t, Raise e).

Definition bind {A B} (c : M A) (k : A -> M B) : M B :=
  fun t => match c t with
           | (t', Ok a) => k a t'
           | (t', Raise e) => (t', Raise e)
           end.

Notation "'do' x <- c ; k" := (bind c (fun x => k))
  (at level 10, x name, c at level 100, k at level 200).
Notation "'do_' c ; k" := (bind c (fun _ => k))
  (at level 10, c at level 100, k at level 200).

(** A step that does not touch the table. *)
Definition pure_step {A} (r : result A) : M A := fun t => (t, r).

(** [try: body except ClientError as e: handler].  Other exceptions pass. *)
Definition try_except_ClientError {A} (body : M A) (handler : string -> M A) : M A :=
  fun t => match body t with
           | (t', Raise (ClientError code)) => handler code t'
           | r => r
           end.

(** [for x in xs: body(x)]. *)
Fixpoint for_each {A} (xs : list A) (body : A -> M unit) : M unit :=
  match xs with
  | [] => ret tt
  | x :: xs' => do_ body x; for_each xs' body
  end.

(** ** Sorting *)

(** A stable insertion sort on a key with a boolean order: the order of
    Python's [sorted] and of an index read in ascending key order. *)
Section stable_sort.
Context {A K : Type} (key : A -> K) (leb : K -> K -> bool).

Fixpoint insert_sorted (x : A) (l : list A) : list A :=
  match l with
  | [] => [x]
  | y :: l' => if leb (key x) (key y) then x :: y :: l'
               else y :: insert_sorted x l'
  end.

Definition stable_sort (l : list A) : list A := foldr insert_sorted [] l.

(** The order of two rows by their keys. *)
Definition key_le (x y : A) : Prop := leb (key x) (key y) = true.
End stable_sort.

(** ** The table operations of boto3 used by the handlers *)

(** [table.get_item(Key={'connectionId': k}).get('Item')]. *)
Definition table_get_item (k : string) : M (option Item) :=
  fun t => (t, Ok (t !! k)).

(** [table.put_item(Item=..., ConditionExpression="attribute_not_exists(connectionId)")]. *)
Definition table_put_item_if_absent (k : string) (it : Item) : M unit :=
  fun t => match t !! k with
           | Some _ => (t, Raise (ClientError "ConditionalCheckFailedException"))
           | None => (<[k := it]> t, Ok tt)
           end.

(** [table.delete_item(Key={'connectionId': k})]. *)
Definition table_delete_item (k : string) : M unit :=
  fun t => (delete k t, Ok tt).

(** The global secondary index [statusIndex]: partition key [status], sort
    key [joinedAt].  Like every DynamoDB index it holds the rows that carry
    both key attributes. *)
Definition in_statusIndex (s : string) (r : Row) : Prop :=
  status r.2 = s ∧ is_Some (joinedAt r.2).

#[global] Instance in_statusIndex_dec s r : Decision (in_statusIndex s r).
Proof. unfold in_statusIndex. apply _. Defined.

Definition statusIndex (s : string) (t : Table) : Table :=
  filter (in_statusIndex s) t.

Definition limit_rows (limit : option nat) (l : list Row) : list Row :=
  match limit with
  | Some n => take n l
  | None => l
  end.

(** The rows of [statusIndex] with partition key [s], in ascending
    [joinedAt] order (byte order of the ISO strings). *)
Definition statusIndex_rows (s : string) (t : Table) : list Row :=
  stable_sort row_joinedAt String.leb (map_to_list (statusIndex s t)).

(** [table.query(IndexName="statusIndex", KeyConditionExpression=Key('status').eq(s),
    ScanIndexForward=True, Limit=limit).get('Items', [])]. *)
Definition table_query_statusIndex (s : string) (limit : option nat) : M (list Row) :=
  fun t => (t, Ok (limit_rows limit (statusIndex_rows s t))).

(** [table.scan().get("Items", [])]. *)
Definition table_scan : M (list Row) :=
  fun t => (t, Ok (map_to_list t)).

(** The two markers. *)
Definition free_marker (existing_marker : string) : string :=
  if String.eqb existing_marker "X" then "O" else "X".

(** ** The [utility] layer *)

Module utility.

(** Modelled from the spec: the source of [utility.count_active_players]
    (the lambda layer) is missing.  "Counts active participants", through the store's
    [queryByStatus]. *)
Definition count_active_players : M nat :=
  do items <- table_query_statusIndex "active" None;
  ret (length items).

(** Modelled from the spec: the source of
    [utility.get_marker_for_new_active_user] is missing.  assignMarker: "Returns A if zero active participants
    exist; returns the marker not already in use if exactly one active
    participant exists; signals SlotsFull if two are already active.  No
    side effects." *)
Definition get_marker_for_new_active_user : M string :=
  do active_players <- table_query_statusIndex "active" None;
  match active_players with
  | [] => ret "X"
  | [p] => ret (free_marker (default "" (marker p.2)))
  | _ => raise SlotsFull
  end.

(** A marker that is [None] or empty leaves the record without one. *)
Definition marker_attribute (m : option string) : option string :=
  match m with
  | Some "" => None
  | _ => m
  end.

(** The fields that an update writes; the others are kept. *)
Definition updated_item (it : Item) (new_status : string)
    (new_marker : option string) (joined_at : option string) : Item :=
  {| sessionId := sessionId it;
     status := new_status;
     marker := marker_attribute new_marker;
     joinedAt := match joined_at with
                 | Some ts => Some ts
                 | None => joinedAt it
                 end;
     username := username it |}.

(** Modelled from the spec: the source of [utility.update_user] is missing.  The
    store's [update(id, fields, condition?) -> ok | ConditionFailed |
    NotFound]: sets the status and the marker of an existing record
    ("transition the participant to active" with the assigned marker;
    "clears marker, sets status=inactive, sets joinedAt=timestamp"), and
    the join time when one is given; a missing record is [NotFound], a
    client error. *)
Definition update_user (connection_id new_status : string)
    (new_marker : option string) (joined_at : option string) : M unit :=
  fun t => match t !! connection_id with
           | None => (t, Raise (ClientError "NotFound"))
           | Some it =>
               (<[connection_id :=
                    updated_item it new_status new_marker joined_at]> t, Ok tt)
           end.

(** [utility.logger.info], [utility.logger.error], [utility.logging.info]:
    logging does not touch the table. *)
Definition log : M unit := ret tt.

End utility.

(** ** Events and responses *)

(** [event['requestContext']].  The payload that [connection.py] sends to
    [joinQueue] carries two more entries, [sessionId] and [marker]. *)
Record RequestContext := mkRequestContext {
  rc_connectionId : string;
  rc_domainName : string;
  rc_stage : string;
  rc_sessionId : option string;
  rc_marker : option string
}.

(** A lambda event: the request context and, for [gameOver], the [loserId]
    entry of the JSON body ([None] when the entry or the body is absent). *)
Record Event := mkEvent {
  requestContext : RequestContext;
  body_loserId : option string
}.

(** The body of a response, before [json.dumps]. *)
Inductive Body :=
| Message (text : string)
| MessageFor (text : string) (connection_id : string)
| Error (text : string)
| JoinQueue (new_status : string) (new_marker : option string).

Record Response := mkResponse {
  statusCode : nat;
  body : Body
}.

(** An asynchronous [client.invoke(FunctionName=..., InvocationType='Event',
    Payload=...)]. *)
Record Invocation := mkInvocation {
  FunctionName : string;
  Payload : Event
}.

(** ** connection.py *)

Module connection.

(** [get_marker_for_new_active_userr()]. *)
Definition get_marker_for_new_active_userr : M string :=
  do active_players <- table_query_statusIndex "active" None;
  do_ utility.log;
  match active_players with
  | [] => ret "X"
  | p :: _ =>
      let existing_marker := default "" (marker p.2) in
      do_ utility.log;
      ret (free_marker existing_marker)
  end.

(** [handler(event, context)] on the [$connect] route.  [utcnow] is the
    text of [datetime.utcnow().isoformat()] and [uuid4] that of
    [str(uuid.uuid4())] at the call; the asynchronous invocations the call
    issues are returned next to its response. *)
Definition handler (event : Event) (utcnow uuid4 : string)
    : M (Response * list Invocation) :=
  let connection_id := rc_connectionId (requestContext event) in
  let domain_name := rc_domainName (requestContext event) in
  let stage := rc_stage (requestContext event) in
  let timestamp := utcnow in
  try_except_ClientError
    (let session_id := uuid4 in
     do_ table_put_item_if_absent connection_id
           {| sessionId := session_id;
              status := "inactive";
              marker := None;
              joinedAt := Some timestamp;
              username := None |};
     do_ utility.log;
     do new_marker <- get_marker_for_new_active_userr;
     let payload m :=
       {| requestContext :=
            {| rc_connectionId := connection_id;
               rc_domainName := domain_name;
               rc_stage := stage;
               rc_sessionId := Some session_id;
               rc_marker := m |};
          body_loserId := None |} in
     ret ({| statusCode := 200; body := Message "Connected successfully" |},
          [ {| FunctionName := "joinQueue"; Payload := payload (Some new_marker) |};
            {| FunctionName := "sendInfo"; Payload := payload None |} ]))
    (fun e =>
       do_ utility.log;
       ret ({| statusCode := 500; body := Error e |}, [])).

End connection.

(** ** joinQueue.py *)

Module joinQueue.

(** [handler(event, context)]; [utcnow] is read in the queued branch. *)
Definition handler (event : Event) (utcnow : string) : M Response :=
  let connection_id := rc_connectionId (requestContext event) in
  try_except_ClientError
    (do active_count <- utility.count_active_players;
     do message <-
       (if decide (active_count < 2) then
          do new_marker <- utility.get_marker_for_new_active_user;
          do_ utility.update_user connection_id "active" (Some new_marker) None;
          do_ utility.log;
          ret (JoinQueue "active" (Some new_marker))
        else
          let new_timestamp := utcnow in
          let new_marker := None in
          do_ utility.update_user connection_id "inactive" new_marker (Some new_timestamp);
          do_ utility.log;
          ret (JoinQueue "inactive" None));
     ret {| statusCode := 200; body := message |})
    (fun e =>
       do_ utility.log;
       ret {| statusCode := 500; body := Error e |}).

End joinQueue.

(** ** gameOver.py *)

Module gameOver.

(** The body of the loop of [fill_active_slots()]: promote one user, and
    log a client error instead of passing it on. *)
Definition promote_user (user : Row) : M unit :=
  let connection_id := user.1 in
  try_except_ClientError
    (do new_marker <- utility.get_marker_for_new_active_user;
     do_ utility.update_user connection_id "active" (Some new_marker) None;
     utility.log)
    (fun e => utility.log).

(** [fill_active_slots()]. *)
Definition fill_active_slots : M unit :=
  do active_count <- utility.count_active_players;
  if decide (2 <= active_count) then ret tt
  else
    let needed := 2 - active_count in
    do inactive_users <- table_query_statusIndex "inactive" (Some needed);
    for_each inactive_users promote_user.

(** Python's [not loser_id] for an absent or a string [loserId]. *)
Definition not_ (loser_id : option string) : bool :=
  match loser_id with
  | None | Some "" => true
  | Some _ => false
  end.

(** [handler(event, context)]. *)
Definition handler (event : Event) (utcnow : string) : M Response :=
  let loser_id := body_loserId event in
  if not_ loser_id then
    do_ utility.log;
    ret {| statusCode := 400; body := Error "Missing loserId parameter" |}
  else
    try_except_ClientError
      (let new_timestamp := utcnow in
       do_ utility.update_user (default "" loser_id) "inactive" (Some "") (Some new_timestamp);
       do_ utility.log;
       do_ fill_active_slots;
       ret {| statusCode := 200; body := Message "gameOver processed" |})
      (fun e =>
         do_ utility.log;
         ret {| statusCode := 500; body := Error e |}).

End gameOver.

(** ** disconnect.py *)

Module disconnect.

(** The global name [Key].  [disconnect.py] imports [utility] and
    [ClientError] only, so evaluating [Key('status')] raises [NameError]. *)
Definition Key : M unit := raise (NameError "Key").

(** The body of the loop of [fill_active_slots()]. *)
Definition promote_user (user : Row) : M unit :=
  let connection_id := user.1 in
  try_except_ClientError
    (do new_marker <- utility.get_marker_for_new_active_user;
     do_ utility.update_user connection_id "active" (Some new_marker) None;
     utility.log)
    (fun e => utility.log).

(** [fill_active_slots()]. *)
Definition fill_active_slots : M unit :=
  do active_count <- utility.count_active_players;
  if decide (2 <= active_count) then ret tt
  else
    let needed := 2 - active_count in
    do_ Key;
    do inactive_users <- table_query_statusIndex "inactive" (Some needed);
    for_each inactive_users promote_user.

(** [handler(event, context)] on the [$disconnect] route. *)
Definition handler (event : Event) : M Response :=
  let connection_id := rc_connectionId (requestContext event) in
  try_except_ClientError
    (do user_item <- table_get_item connection_id;
     match user_item with
     | None =>
         do_ utility.log;
         ret {| statusCode := 200; body := Message "No user record found." |}
     | Some item =>
         let user_status := status item in
         do_ table_delete_item connection_id;
         do_ utility.log;
         do_ (if decide (user_status = "active") then fill_active_slots else ret tt);
         ret {| statusCode := 200; body := MessageFor "Disconnected" connection_id |}
     end)
    (fun e =>
       do_ utility.log;
       ret {| statusCode := 500; body := Error e |}).

End disconnect.

(** ** streamDB.py *)

Module streamDB.

(** A [datetime]: naive, as the number of microseconds after [datetime.min]
    on its own clock, or aware of its UTC offset, as the number of
    microseconds after 0001-01-01T00:00:00 UTC (two aware values compare by
    their UTC times). *)
Inductive datetime :=
| naive (us : N)
| aware (utc_us : Z).

#[global] Instance datetime_eq_dec : EqDecision datetime.
Proof. solve_decision. Defined.

(** [datetime.min]. *)
Definition datetime_min : datetime := naive 0.

Definition is_aware (d : datetime) : bool :=
  match d with
  | aware _ => true
  | naive _ => false
  end.

(** [a < b].  Between a naive and an aware value Python raises. *)
Definition datetime_lt (a b : datetime) : result bool :=
  match a, b with
  | naive x, naive y => Ok (x <? y)%N
  | aware x, aware y => Ok (x <? y)%Z
  | _, _ =>
      Raise (TypeError "can't compare offset-naive and offset-aware datetimes")
  end.

(** [a <= b], between two values of a kind. *)
Definition datetime_le (a b : datetime) : Prop :=
  match a, b with
  | naive x, naive y => (x ≤ y)%N
  | aware x, aware y => (x ≤ y)%Z
  | _, _ => False
  end.

(** The keys that a sort can compare: all naive, or all aware. *)
Definition comparable (keys : list datetime) : bool :=
  forallb (λ d, negb (is_aware d)) keys || forallb is_aware keys.

(** A total order on all values that agrees with [<=] on each kind (naive
    values first); it is the order of [stable_sort] that the properties
    compare [sorted] with. *)
Definition datetime_leb (a b : datetime) : bool :=
  match a, b with
  | naive x, naive y => (x <=? y)%N
  | aware x, aware y => (x <=? y)%Z
  | naive _, aware _ => true
  | aware _, naive _ => false
  end.

Section sorted.
Context {A : Type} (key : A -> datetime).

(** Put [x], which stood before the rows of the sorted [l], ahead of the
    first row whose key is not less than its own. *)
Fixpoint insert_row (x : A) (l : list A) : result (list A) :=
  match l with
  | [] => Ok [x]
  | y :: l' =>
      match datetime_lt (key y) (key x) with
      | Raise e => Raise e
      | Ok false => Ok (x :: y :: l')
      | Ok true =>
          match insert_row x l' with
          | Ok l'' => Ok (y :: l'')
          | Raise e => Raise e
          end
      end
  end.

(** [sorted(l, key=key)]: the stable sort.  It compares keys with [<] only
    and an exception of a comparison ends it; in whatever order a sort
    compares, it meets a naive and an aware key when both occur, and when
    none does it gives the one stable order. *)
Fixpoint sorted (l : list A) : result (list A) :=
  match l with
  | [] => Ok []
  | x :: l' =>
      match sorted l' with
      | Ok s => insert_row x s
      | Raise e => Raise e
      end
  end.

End sorted.

Section live_queue.
(** [datetime.fromisoformat]: the datetime of a text, or [None] when it
    raises [ValueError]. *)
Variable fromisoformat : string -> option datetime.

(** [joined_str.replace("Z", "")]. *)
Fixpoint replace_Z (s : string) : string :=
  match s with
  | EmptyString => EmptyString
  | String c s' => if Ascii.eqb c "Z"%char then replace_Z s'
                   else String c (replace_Z s')
  end.

(** The sort key [parse_joined_at(item)]. *)
Definition parse_joined_at (item : Row) : datetime :=
  let joined_str := default "" (joinedAt item.2) in
  match fromisoformat (replace_Z joined_str) with
  | Some d => d
  | None => datetime_min
  end.

(** [_get_live_queue_data()]. *)
Definition _get_live_queue_data : M (list Row) :=
  do all_items <- table_scan;
  do sorted_items <- pure_step (sorted parse_joined_at all_items);
  ret sorted_items.

(** The key falls back to [datetime.min]: the text does not parse. *)
Definition unparseable (item : Row) : Prop :=
  fromisoformat (replace_Z (default "" (joinedAt item.2))) = None.

End live_queue.

(** *** The texts of [datetime.isoformat()]

    [datetime.fromisoformat] on the texts that [isoformat()] gives:
    [YYYY-MM-DD], alone or followed by one separator character and
    [HH:MM:SS], with or without a fraction of three or six digits, and with
    or without a UTC offset [+HH:MM] or [-HH:MM]. *)

Definition digit (c : ascii) : option N := N.of_nat <$> Ascii.is_nat c.

(** [n] decimal digits at the head of [s], after the digits [acc]. *)
Fixpoint digits (n : nat) (s : string) (acc : N) : option (N * string) :=
  match n with
  | O => Some (acc, s)
  | S n' =>
      match s with
      | String c s' => d ← digit c; digits n' s' (10 * acc + d)%N
      | EmptyString => None
      end
  end.

Definition expect (c : ascii) (s : string) : option string :=
  match s with
  | String c' s' => if Ascii.eqb c c' then Some s' else None
  | EmptyString => None
  end.

Definition is_leap (y : N) : bool :=
  ((y mod 4 =? 0) && (negb (y mod 100 =? 0) || (y mod 400 =? 0)))%N.

Definition days_in_month (y m : N) : N :=
  match m with
  | 1 | 3 | 5 | 7 | 8 | 10 | 12 => 31
  | 4 | 6 | 9 | 11 => 30
  | 2 => if is_leap y then 29 else 28
  | _ => 0
  end%N.

(** Days from 0001-01-01 to the first day of year [y]. *)
Definition days_before_year (y : N) : N :=
  let p := (y - 1)%N in (365 * p + p / 4 - p / 100 + p / 400)%N.

(** Days from the first day of year [y] to the first day of its month [m]. *)
Definition days_before_month (y m : N) : N :=
  foldr (λ i acc, (days_in_month y (N.of_nat i) + acc)%N) 0%N
    (seq 1 (N.to_nat m - 1)).

(** The fraction of a second at the head of [s], in microseconds, and the
    text after it. *)
Definition fraction (s : string) : option (N * string) :=
  match s with
  | String "."%char s' =>
      match digits 6 s' 0 with
      | Some r => Some r
      | None =>
          match digits 3 s' 0 with
          | Some (ms, rest) => Some (1000 * ms, rest)%N
          | None => None
          end
      end
  | _ => Some (0%N, s)
  end.

(** The UTC offset that ends a text, in microseconds: [Some None] when the
    text has ended already. *)
Definition utc_offset (s : string) : option (option Z) :=
  match s with
  | EmptyString => Some None
  | String c s' =>
      sign ← (if Ascii.eqb c "+" then Some 1%Z
              else if Ascii.eqb c "-" then Some (-1)%Z else None);
      '(h, s) ← digits 2 s' 0; s ← expect ":" s;
      '(mi, s) ← digits 2 s 0;
      match s with
      | EmptyString =>
          if ((h <? 24) && (mi <? 60))%N
          then Some (Some (sign * Z.of_N ((h * 60 + mi) * 60000000))%Z)
          else None
      | _ => None
      end
  end.

(** The time of day at the head of [s], in microseconds, and the text
    after it. *)
Definition time_of_day (s : string) : option (N * string) :=
  '(h, s) ← digits 2 s 0; s ← expect ":" s;
  '(mi, s) ← digits 2 s 0; s ← expect ":" s;
  '(sec, s) ← digits 2 s 0;
  '(us, s) ← fraction s;
  if ((h <? 24) && (mi <? 60) && (sec <? 60))%N
  then Some ((((h * 60 + mi) * 60 + sec) * 1000000 + us)%N, s)
  else None.

Definition fromisoformat_text (s : string) : option datetime :=
  '(y, s) ← digits 4 s 0; s ← expect "-" s;
  '(mo, s) ← digits 2 s 0; s ← expect "-" s;
  '(d, s) ← digits 2 s 0;
  if ((1 <=? y) && (1 <=? mo) && (mo <=? 12) && (1 <=? d)
      && (d <=? days_in_month y mo))%N
  then
    let day := (days_before_year y + days_before_month y mo + d - 1)%N in
    match s with
    | EmptyString => Some (naive (day * 86400000000))
    | String _ s' =>
        '(us, s'') ← time_of_day s';
        offset ← utc_offset s'';
        match offset with
        | None => Some (naive (day * 86400000000 + us))
        | Some off => Some (aware (Z.of_N (day * 86400000000 + us) - off))
        end
    end
  else None.

End streamDB.

(** ** The matchmaking state machine *)

(** The participants whose status is active. *)
Definition is_active (r : Row) : Prop := status r.2 = "active".

#[global] Instance is_active_dec r : Decision (is_active r).
Proof. unfold is_active. apply _. Defined.

Definition active_set (t : Table) : Table := filter is_active t.

(** The two triggering events of admission. *)
Inductive Transition :=
| OnAdmit (event : Event) (utcnow uuid4 : string)
| OnQueueRequest (event : Event) (utcnow : string).

Definition step (t : Table) (e : Transition) : Table :=
  match e with
  | OnAdmit event utcnow uuid4 => (connection.handler event utcnow uuid4 t).1
  | OnQueueRequest event utcnow => (joinQueue.handler event utcnow t).1
  end.

Definition run (es : list Transition) : Table := foldl step ∅ es.

(** Every record carries a join time, as every record the handlers create
    does. *)
Definition indexed (t : Table) : Prop :=
  ∀ k a, t !! k = Some a → is_Some (joinedAt a).

Definition is_marker (m : option string) : Prop := m = Some "X" ∨ m = Some "O".

(** The invariants on the active seats. *)
Record seats_ok (t : Table) : Prop := {
  seats_indexed : indexed t;
  seats_at_most_two : size (active_set t) ≤ 2;
  seats_marked : ∀ k a, active_set t !! k = Some a → is_marker (marker a);
  seats_distinct : ∀ k1 k2 a1 a2, k1 ≠ k2 →
    active_set t !! k1 = Some a1 → active_set t !! k2 = Some a2 →
    marker a1 ≠ marker a2
}.

(** A record promoted to an active seat with marker [m]. *)
Definition promoted (it : Item) (m : string) : Item :=
  {| sessionId := sessionId it; status := "active"; marker := Some m;
     joinedAt := joinedAt it; username := username it |}.

(** A record sent to the waiting line at time [ts]. *)
Definition queued (it : Item) (ts : string) : Item :=
  {| sessionId := sessionId it; status := "inactive"; marker := None;
     joinedAt := Some ts; username := username it |}.

(** The event with another [marker] entry in its request context. *)
Definition with_marker (event : Event) (m : option string) : Event :=
  {| requestContext :=
       {| rc_connectionId := rc_connectionId (requestContext event);
          rc_domainName := rc_domainName (requestContext event);
          rc_stage := rc_stage (requestContext event);
          rc_sessionId := rc_sessionId (requestContext event);
          rc_marker := m |};
     body_loserId := body_loserId event |}.

(** ** Sample participants, requests and tables *)

Definition participant (sid st : string) (mk : option string) (ts : string) : Item :=
  {| sessionId := sid; status := st; marker := mk; joinedAt := Some ts;
     username := None |}.

Definition request (cid : string) (loser : option string) : Event :=
  {| requestContext :=
       {| rc_connectionId := cid;
          rc_domainName := "queue.example.com";
          rc_stage := "production";
          rc_sessionId := None;
          rc_marker := None |};
     body_loserId := loser |}.

Definition P1 : Item := participant "s-1" "active" (Some "X") "2024-05-01T10:00:00".
Definition P2 : Item := participant "s-2" "active" (Some "O") "2024-05-01T10:00:05".
Definition P3 : Item := participant "s-3" "inactive" None "2024-05-01T10:00:10.250000".
Definition P4 : Item := participant "s-4" "inactive" None "2024-05-01T10:00:20".

(** A record without a join time, as a write outside the handlers leaves. *)
Definition P5 : Item :=
  {| sessionId := "s-5"; status := "inactive"; marker := None;
     joinedAt := None; username := Some "guest" |}.

(** Two participants playing, nobody waiting. *)
Definition two_playing : Table := {[ "P1" := P1; "P2" := P2 ]}.

(** Two participants playing, one waiting. *)
Definition one_waiting : Table := {[ "P1" := P1; "P2" := P2; "P3" := P3 ]}.

(** One participant playing, one waiting. *)
Definition one_playing : Table := {[ "P2" := P2; "P3" := P3 ]}.

(** Nobody playing, two waiting. *)
Definition nobody_playing : Table := {[ "P3" := P3; "P4" := P4 ]}.

(** A table with a record that has no join time. *)
Definition with_unstamped : Table := {[ "P1" := P1; "P3" := P3; "P5" := P5 ]}.

(** A record stamped with the text of [datetime.min]. *)
Definition P6 : Item := participant "s-6" "inactive" None "0001-01-01T00:00:00".

(** A record stamped [datetime.min] next to one without a join time. *)
Definition stamped_min : Table := {[ "A" := P6; "B" := P5 ]}.

(** A record stamped with a UTC offset. *)
Definition P7 : Item :=
  participant "s-7" "inactive" None "2024-05-01T10:00:00+00:00".

(** A record stamped with an offset next to one without a join time. *)
Definition stamped_offset : Table := {[ "A" := P7; "B" := P5 ]}.

(** Two records stamped with offsets, the same instant on two clocks apart. *)
Definition P8 : Item :=
  participant "s-8" "inactive" None "2024-05-01T12:00:00+02:00".

Definition stamped_offsets : Table := {[ "A" := P7; "B" := P8 ]}.

(** Two admissions, each followed by its queue request, then a third. *)
Definition three_arrivals : list Transition :=
  [ OnAdmit (request "P1" None) "2024-05-01T10:00:00" "s-1";
    OnQueueRequest (request "P1" None) "2024-05-01T10:00:01";
    OnAdmit (request "P2" None) "2024-05-01T10:00:05" "s-2";
    OnQueueRequest (request "P2" None) "2024-05-01T10:00:06";
    OnAdmit (request "P3" None) "2024-05-01T10:00:10" "s-3";
    OnQueueRequest (request "P3" None) "2024-05-01T10:00:11" ].

(** ** updateDB.py *)

Module updateDB.

(** The event of [updateDB]: a flat object that may hold a [username] and a
    [connectionId] entry. *)
Record NameEvent := mkNameEvent {
  ev_username : option string;
  ev_connectionId : option string
}.

(** What [lambda_handler] returns: the response of [update_item] with
    [ReturnValues="UPDATED_NEW"], that is the attribute written, or a plain
    response. *)
Inductive Returned :=
| Attributes (new_username : string)
| Plain (r : Response).

(** What a call leaves behind: the table with the value returned or the
    exception raised; or, when [update_item] names a key that has no row,
    the row it creates, which holds the key and the user name and nothing
    else ([update_item] has no condition here), so it is not an [Item]. *)
Inductive Outcome :=
| Finished (t : Table) (r : result Returned)
| BareRow (connection_id new_username : string).

(** [set username = :u] on a row. *)
Definition set_username (it : Item) (u : string) : Item :=
  {| sessionId := sessionId it; status := status it; marker := marker it;
     joinedAt := joinedAt it; username := Some u |}.

(** [lambda_handler(event, context)].  A missing [connectionId] entry is a
    [KeyError], which [except Exception] turns into the 400 response; an
    empty key is refused by DynamoDB with a client error, which is raised
    again. *)
Definition lambda_handler (event : NameEvent) (t : Table) : Outcome :=
  match ev_username event with
  | Some new_username =>
      match ev_connectionId event with
      | None =>
          Finished t (Ok (Plain {| statusCode := 400;
                                   body := Error "Error parsing body" |}))
      | Some connection_id =>
          if decide (connection_id = "")
          then Finished t (Raise (ClientError "ValidationException"))
          else
            match t !! connection_id with
            | Some it =>
                Finished (<[connection_id := set_username it new_username]> t)
                         (Ok (Attributes new_username))
            | None => BareRow connection_id new_username
            end
      end
  | None =>
      Finished t (Ok (Plain {| statusCode := 200;
                               body := Message "Hello from Lambda!" |}))
  end.

End updateDB.

(** ** All four triggers *)

(** Admission, queue request, departure and game result. *)
Inductive Trigger :=
| Admit (event : Event) (utcnow uuid4 : string)
| QueueRequest (event : Event) (utcnow : string)
| Depart (event : Event)
| GameResult (event : Event) (utcnow : string).

(** The table that a trigger leaves, whether its handler returns or raises. *)
Definition fire (t : Table) (e : Trigger) : Table :=
  match e with
  | Admit event utcnow uuid4 => (connection.handler event utcnow uuid4 t).1
  | QueueRequest event utcnow => (joinQueue.handler event utcnow t).1
  | Depart event => (disconnect.handler event t).1
  | GameResult event utcnow => (gameOver.handler event utcnow t).1
  end.

Definition run_triggers (es : list Trigger) : Table := foldl fire ∅ es.

(** The rows that one pass of [fill_active_slots] asks for. *)
Definition candidates (t : Table) : list Row :=
  take (2 - size (statusIndex "active" t)) (statusIndex_rows "inactive" t).

(** The attributes that matchmaking reads. *)
Definition matchmaking_fields (it : Item)
    : string * string * option string * option string :=
  (sessionId it, status it, marker it, joinedAt it).

(** A game between P1 and P2, P3 and P4 waiting, and the events of one
    evening. *)
Definition two_waiting : Table :=
  {[ "P1" := P1; "P2" := P2; "P3" := P3; "P4" := P4 ]}.

Definition one_evening : list Trigger :=
  [ Admit (request "P1" None) "2024-05-01T10:00:00" "s-1";
    QueueRequest (request "P1" None) "2024-05-01T10:00:01";
    Admit (request "P2" None) "2024-05-01T10:00:05" "s-2";
    QueueRequest (request "P2" None) "2024-05-01T10:00:06";
    Admit (request "P3" None) "2024-05-01T10:00:10" "s-3";
    QueueRequest (request "P3" None) "2024-05-01T10:00:11";
    GameResult (request "P1" (Some "P2")) "2024-05-01T10:20:00";
    Depart (request "P1" None);
    GameResult (request "P3" (Some "P3")) "2024-05-01T10:40:00" ].

(** * Properties *)

(** ** Sorting *)

Section stable_sort_facts.
Context {A K : Type} (key : A -> K) (leb : K -> K -> bool).

Lemma insert_sorted_Permutation x l :
  insert_sorted key leb x l ≡ₚ x :: l.
Proof.
  induction l as [|y l IH]; simpl; [done|].
  destruct (leb (key x) (key y)); [done|].
  rewrite IH. apply Permutation_swap.
Qed.

Lemma stable_sort_Permutation l : stable_sort key leb l ≡ₚ l.
Proof.
  induction l as [|x l IH]; simpl; [done|].
  rewrite insert_sorted_Permutation. by rewrite IH.
Qed.

Lemma stable_sort_length l : length (stable_sort key leb l) = length l.
Proof. by rewrite stable_sort_Permutation. Qed.

Lemma stable_sort_elem_of x l : x ∈ stable_sort key leb l ↔ x ∈ l.
Proof. by rewrite stable_sort_Permutation. Qed.

Hypothesis leb_total : ∀ a b, leb a b = true ∨ leb b a = true.
Hypothesis leb_trans : ∀ a b c, leb a b = true → leb b c = true → leb a c = true.

Lemma insert_sorted_StronglySorted x l :
  StronglySorted (key_le key leb) l → StronglySorted (key_le key leb) (insert_sorted key leb x l).
Proof.
  induction 1 as [|y l Hl IH Hy]; simpl.
  - repeat constructor.
  - destruct (leb (key x) (key y)) eqn:Hxy.
    + constructor; [by constructor|].
      constructor; [done|].
      eapply Forall_impl; [exact Hy|]. intros z Hz. by eapply leb_trans.
    + constructor; [done|].
      rewrite insert_sorted_Permutation. constructor; [|done].
      destruct (leb_total (key x) (key y)); [congruence|done].
Qed.

Lemma stable_sort_StronglySorted l : StronglySorted (key_le key leb) (stable_sort key leb l).
Proof.
  induction l as [|x l IH]; simpl; [constructor|].
  by apply insert_sorted_StronglySorted.
Qed.


End stable_sort_facts.

(** Rows with one key keep their order. *)

Section stable_sort_ties.
Context {A K : Type} `{EqDecision K} (key : A -> K) (leb : K -> K -> bool).
Hypothesis leb_refl : ∀ a, leb a a = true.

Lemma insert_sorted_filter_key c x l :
  filter (λ y, key y = c) (insert_sorted key leb x l)
  = filter (λ y, key y = c) (x :: l).
Proof.
  induction l as [|y l IH]; simpl; [done|].
  destruct (leb (key x) (key y)) eqn:Hxy; [done|].
  rewrite filter_cons, IH, !filter_cons.
  repeat case_decide; try done.
  assert (key x = key y) as Heq by congruence.
  rewrite Heq, leb_refl in Hxy. done.
Qed.

Lemma stable_sort_filter_key c l :
  filter (λ y, key y = c) (stable_sort key leb l) = filter (λ y, key y = c) l.
Proof.
  induction l as [|x l IH]; simpl; [done|].
  rewrite insert_sorted_filter_key, !filter_cons. by rewrite IH.
Qed.

End stable_sort_ties.

(** ** The table and its status index *)

Lemma map_size_1 (m : Table) : size m = 1 → ∃ k a, m = {[k := a]}.
Proof.
  intros Hsz. rewrite <-length_map_to_list in Hsz.
  destruct (map_to_list m) as [|[k a] [|? ?]] eqn:Hl; simplify_eq/=.
  exists k, a. rewrite <-(list_to_map_to_list m), Hl. done.
Qed.

Lemma map_size_2 (m : Table) :
  size m = 2 → ∃ k1 k2 a1 a2, k1 ≠ k2 ∧ m = <[k1 := a1]> {[k2 := a2]}.
Proof.
  intros Hsz. pose proof (NoDup_fst_map_to_list m) as Hnd.
  rewrite <-length_map_to_list in Hsz.
  destruct (map_to_list m) as [|[k1 a1] [|[k2 a2] [|? ?]]] eqn:Hl; simplify_eq/=.
  exists k1, k2, a1, a2. split.
  - apply NoDup_cons in Hnd as [Hn _]. set_solver.
  - rewrite <-(list_to_map_to_list m), Hl. done.
Qed.

Lemma statusIndex_rows_Permutation s t :
  statusIndex_rows s t ≡ₚ map_to_list (statusIndex s t).
Proof. apply stable_sort_Permutation. Qed.

Lemma statusIndex_rows_length s t :
  length (statusIndex_rows s t) = size (statusIndex s t).
Proof. by rewrite statusIndex_rows_Permutation, length_map_to_list. Qed.

Lemma elem_of_statusIndex_rows s t k a :
  (k, a) ∈ statusIndex_rows s t ↔
  t !! k = Some a ∧ status a = s ∧ is_Some (joinedAt a).
Proof.
  rewrite statusIndex_rows_Permutation, elem_of_map_to_list.
  unfold statusIndex. rewrite map_lookup_filter_Some. done.
Qed.

Lemma statusIndex_rows_singleton s t k a :
  statusIndex s t = {[k := a]} → statusIndex_rows s t = [(k, a)].
Proof.
  intros Heq. apply Permutation_singleton_r.
  by rewrite statusIndex_rows_Permutation, Heq, map_to_list_singleton.
Qed.

Lemma statusIndex_rows_nil s t :
  size (statusIndex s t) = 0 → statusIndex_rows s t = [].
Proof.
  intros Hsz. apply nil_length_inv. by rewrite statusIndex_rows_length.
Qed.

Lemma statusIndex_rows_one s t :
  size (statusIndex s t) = 1 →
  ∃ k a, statusIndex s t = {[k := a]} ∧ statusIndex_rows s t = [(k, a)].
Proof.
  intros (k & a & Heq)%map_size_1. exists k, a. split; [done|].
  by apply statusIndex_rows_singleton.
Qed.

Lemma indexed_statusIndex_active t :
  indexed t → statusIndex "active" t = active_set t.
Proof.
  intros Hix. apply map_filter_strong_ext. intros k a.
  unfold in_statusIndex, is_active; simpl. split.
  - by intros [[Hs _] Hk].
  - intros [Hs Hk]. split; [split|]; eauto.
Qed.

Lemma String_leb_trans a b c :
  String.leb a b = true → String.leb b c = true → String.leb a c = true.
Proof.
  intros H1%Is_true_true H2%Is_true_true. apply Is_true_true.
  change (String.le a c). by trans b.
Qed.

Lemma String_ltb_not_leb a b : String.ltb a b = true → String.leb b a = false.
Proof.
  unfold String.ltb, String.leb. rewrite (String.compare_antisym a b).
  destruct (String.compare b a); simpl; congruence.
Qed.


(** ** Running the [utility] layer *)

Lemma count_active_players_run t :
  utility.count_active_players t = (t, Ok (size (statusIndex "active" t))).
Proof.
  unfold utility.count_active_players, bind, table_query_statusIndex, ret; simpl.
  by rewrite statusIndex_rows_length.
Qed.

Lemma free_marker_is_marker m : free_marker m = "X" ∨ free_marker m = "O".
Proof. unfold free_marker. destruct (String.eqb m "X"); auto. Qed.

Lemma marker_attribute_free m :
  utility.marker_attribute (Some (free_marker m)) = Some (free_marker m).
Proof. by destruct (free_marker_is_marker m) as [-> | ->]. Qed.

Lemma free_marker_X : free_marker "X" = "O".
Proof. reflexivity. Qed.

Lemma free_marker_O : free_marker "O" = "X".
Proof. reflexivity. Qed.

Lemma get_marker_for_new_active_user_none t :
  size (statusIndex "active" t) = 0 →
  utility.get_marker_for_new_active_user t = (t, Ok "X").
Proof.
  intros Hsz. unfold utility.get_marker_for_new_active_user, bind,
    table_query_statusIndex; simpl.
  by rewrite statusIndex_rows_nil.
Qed.

Lemma get_marker_for_new_active_user_one t k a :
  statusIndex "active" t = {[k := a]} →
  utility.get_marker_for_new_active_user t
  = (t, Ok (free_marker (default "" (marker a)))).
Proof.
  intros Heq. unfold utility.get_marker_for_new_active_user, bind,
    table_query_statusIndex; simpl.
  by rewrite (statusIndex_rows_singleton _ _ _ _ Heq).
Qed.

Lemma update_user_run t k it st mk ja :
  t !! k = Some it →
  utility.update_user k st mk ja t
  = (<[k := utility.updated_item it st mk ja]> t, Ok tt).
Proof. intros Hk. unfold utility.update_user. by rewrite Hk. Qed.

Lemma update_user_missing t k st mk ja :
  t !! k = None →
  utility.update_user k st mk ja t = (t, Raise (ClientError "NotFound")).
Proof. intros Hk. unfold utility.update_user. by rewrite Hk. Qed.

Lemma updated_item_promoted it m :
  utility.updated_item it "active" (Some (free_marker m)) None
  = promoted it (free_marker m).
Proof.
  unfold utility.updated_item, promoted. by rewrite marker_attribute_free.
Qed.

(** With fewer than two active rows the marker is computed, not refused. *)
Lemma get_marker_for_new_active_user_run t :
  size (statusIndex "active" t) < 2 →
  ∃ m, utility.get_marker_for_new_active_user t = (t, Ok (free_marker m)) ∧
       (size (statusIndex "active" t) = 0 → free_marker m = "X") ∧
       (∀ k a, statusIndex "active" t = {[k := a]} →
               free_marker m = free_marker (default "" (marker a))).
Proof.
  intros Hlt.
  destruct (size (statusIndex "active" t)) as [|[|n]] eqn:Hsz; [| |lia].
  - exists "O". rewrite get_marker_for_new_active_user_none by done.
    split; [done|]. split; [done|]. intros k a Heq.
    rewrite Heq, map_size_singleton in Hsz. done.
  - destruct (map_size_1 _ Hsz) as (k & a & Heq).
    exists (default "" (marker a)).
    rewrite (get_marker_for_new_active_user_one _ _ _ Heq).
    split; [done|]. split; [done|]. intros k' a' Heq'.
    rewrite Heq in Heq'. apply (f_equal map_to_list) in Heq'.
    rewrite !map_to_list_singleton in Heq'. by simplify_eq.
Qed.

(** ** Running [joinQueue.handler] *)

Lemma joinQueue_handler_missing event utcnow t :
  t !! rc_connectionId (requestContext event) = None →
  joinQueue.handler event utcnow t
  = (t, Ok {| statusCode := 500; body := Error "NotFound" |}).
Proof.
  intros Hk. unfold joinQueue.handler, try_except_ClientError, bind.
  rewrite count_active_players_run. case_decide as Hlt.
  - destruct (get_marker_for_new_active_user_run t Hlt) as (m & -> & _).
    by rewrite update_user_missing.
  - by rewrite update_user_missing.
Qed.

Lemma joinQueue_handler_active event utcnow t it :
  t !! rc_connectionId (requestContext event) = Some it →
  size (statusIndex "active" t) < 2 →
  ∃ m, utility.get_marker_for_new_active_user t = (t, Ok m) ∧
       joinQueue.handler event utcnow t
       = (<[rc_connectionId (requestContext event) := promoted it m]> t,
          Ok {| statusCode := 200; body := JoinQueue "active" (Some m) |}).
Proof.
  intros Hk Hlt. unfold joinQueue.handler, try_except_ClientError, bind.
  rewrite count_active_players_run. rewrite decide_True by done.
  destruct (get_marker_for_new_active_user_run t Hlt) as (m & Hm & _).
  exists (free_marker m). split; [done|]. rewrite Hm.
  rewrite (update_user_run _ _ _ _ _ _ Hk). by rewrite updated_item_promoted.
Qed.

Lemma joinQueue_handler_queued event utcnow t it :
  t !! rc_connectionId (requestContext event) = Some it →
  2 ≤ size (statusIndex "active" t) →
  joinQueue.handler event utcnow t
  = (<[rc_connectionId (requestContext event) := queued it utcnow]> t,
     Ok {| statusCode := 200; body := JoinQueue "inactive" None |}).
Proof.
  intros Hk Hge. unfold joinQueue.handler, try_except_ClientError, bind.
  rewrite count_active_players_run. rewrite decide_False by lia.
  by rewrite (update_user_run _ _ _ _ _ _ Hk).
Qed.

(** ** The active seats under writes *)

Lemma active_set_insert_active t k a :
  status a = "active" → active_set (<[k := a]> t) = <[k := a]> (active_set t).
Proof. intros Ha. unfold active_set. by rewrite map_filter_insert_True. Qed.

Lemma active_set_insert_other t k a :
  status a ≠ "active" → active_set (<[k := a]> t) = delete k (active_set t).
Proof.
  intros Ha. unfold active_set.
  rewrite map_filter_insert_False by done. apply map_filter_delete.
Qed.

Lemma active_set_delete t k : active_set (delete k t) = delete k (active_set t).
Proof. apply map_filter_delete. Qed.

Lemma active_set_lookup t k a :
  active_set t !! k = Some a ↔ t !! k = Some a ∧ status a = "active".
Proof. unfold active_set. by rewrite map_lookup_filter_Some. Qed.

Lemma indexed_insert t k a :
  indexed t → is_Some (joinedAt a) → indexed (<[k := a]> t).
Proof.
  intros Hix Ha k' a' [[-> ->]|[_ Hk]]%lookup_insert_Some; [done|]. by eapply Hix.
Qed.

Lemma indexed_delete t k : indexed t → indexed (delete k t).
Proof. intros Hix k' a' [_ Hk]%lookup_delete_Some. by eapply Hix. Qed.

Lemma seats_ok_empty : seats_ok ∅.
Proof.
  split.
  - intros k a Hk. by rewrite lookup_empty in Hk.
  - unfold active_set. rewrite map_filter_empty, map_size_empty. lia.
  - intros k a [Hk _]%active_set_lookup. by rewrite lookup_empty in Hk.
  - intros k1 k2 a1 a2 _ [Hk _]%active_set_lookup. by rewrite lookup_empty in Hk.
Qed.

(** Removing rows from the active set keeps the seats in order. *)
Lemma seats_ok_shrink t t' j :
  seats_ok t → indexed t' → active_set t' = delete j (active_set t) →
  seats_ok t'.
Proof.
  intros [Hix Hsz Hmk Hdi] Hix' Heq. split; [done|..]; rewrite Heq.
  - rewrite map_size_delete. destruct (active_set t !! j); simpl; lia.
  - intros k a [_ Hk]%lookup_delete_Some. by eapply Hmk.
  - intros k1 k2 a1 a2 Hne [_ H1]%lookup_delete_Some [_ H2]%lookup_delete_Some.
    exact (Hdi k1 k2 a1 a2 Hne H1 H2).
Qed.

Lemma seats_ok_insert_other t k a :
  seats_ok t → status a ≠ "active" → is_Some (joinedAt a) →
  seats_ok (<[k := a]> t).
Proof.
  intros Hok Ha Hj. eapply seats_ok_shrink; [done| |by apply active_set_insert_other].
  apply indexed_insert; [apply Hok|done].
Qed.

Lemma seats_ok_delete t k : seats_ok t → seats_ok (delete k t).
Proof.
  intros Hok. eapply seats_ok_shrink; [done| |apply active_set_delete].
  apply indexed_delete, Hok.
Qed.

Lemma is_marker_free_marker m :
  is_marker (Some m) →
  is_marker (Some (free_marker m)) ∧ free_marker m ≠ m.
Proof.
  intros [[= ->]|[= ->]].
  - split; [by right|done].
  - split; [by left|done].
Qed.

(** Seating a participant with the computed marker keeps the seats in order. *)
Lemma seats_ok_promote t k it m :
  seats_ok t → t !! k = Some it → size (statusIndex "active" t) < 2 →
  utility.get_marker_for_new_active_user t = (t, Ok m) →
  seats_ok (<[k := promoted it m]> t).
Proof.
  intros [Hix Hsz Hmk Hdi] Hk Hlt Hm.
  destruct (get_marker_for_new_active_user_run t Hlt) as (m' & Hm' & H0 & H1).
  rewrite Hm' in Hm. injection Hm as <-.
  rewrite (indexed_statusIndex_active t Hix) in *.
  assert (Hix' : indexed (<[k := promoted it (free_marker m')]> t)).
  { apply indexed_insert; [done|]. simpl. by eapply Hix. }
  split; [done|..]; rewrite active_set_insert_active by done.
  - rewrite map_size_insert. destruct (active_set t !! k); simpl; lia.
  - intros k' a [[-> <-]|[_ Hk']]%lookup_insert_Some; [|by eapply Hmk].
    simpl. destruct (free_marker_is_marker m') as [-> | ->]; by (left + right).
  - assert (Hother : ∀ k' a, k' ≠ k → active_set t !! k' = Some a →
              marker a ≠ Some (free_marker m')).
    { intros k' a Hne Hk'.
      destruct (size (active_set t)) as [|[|n]] eqn:Hsize; [| |lia].
      - apply map_size_empty_inv in Hsize. rewrite Hsize in Hk'.
        by rewrite lookup_empty in Hk'.
      - destruct (map_size_1 _ Hsize) as (k0 & a0 & Heq).
        rewrite (H1 _ _ Heq). rewrite Heq in Hk'.
        apply lookup_singleton_Some in Hk' as [-> ->].
        assert (Hin : active_set t !! k' = Some a).
        { rewrite Heq. apply lookup_singleton_eq. }
        apply Hmk in Hin. destruct (marker a) as [ma|] eqn:Hma.
        + simpl. destruct (is_marker_free_marker ma Hin) as [_ Hne']. congruence.
        + done. }
    intros k1 k2 a1 a2 Hne [[-> <-]|[Hn1 H1']]%lookup_insert_Some
      [[-> <-]|[Hn2 H2']]%lookup_insert_Some; simpl.
    + done.
    + intros Heq. by eapply (Hother k2 a2).
    + exact (Hother k1 a1 Hne H1').
    + exact (Hdi k1 k2 a1 a2 Hne H1' H2').
Qed.

(** ** Running [connection.py] *)

Lemma get_marker_for_new_active_userr_run t :
  connection.get_marker_for_new_active_userr t
  = (t, Ok match statusIndex_rows "active" t with
           | [] => "X"
           | p :: _ => free_marker (default "" (marker p.2))
           end).
Proof.
  unfold connection.get_marker_for_new_active_userr, bind,
    table_query_statusIndex; simpl.
  by destruct (statusIndex_rows "active" t).
Qed.

Lemma connection_handler_existing event utcnow uuid4 t it :
  t !! rc_connectionId (requestContext event) = Some it →
  connection.handler event utcnow uuid4 t
  = (t, Ok ({| statusCode := 500;
               body := Error "ConditionalCheckFailedException" |}, [])).
Proof.
  intros Hk. unfold connection.handler, try_except_ClientError, bind,
    table_put_item_if_absent. by rewrite Hk.
Qed.

Lemma connection_handler_fresh event utcnow uuid4 t :
  t !! rc_connectionId (requestContext event) = None →
  (connection.handler event utcnow uuid4 t).1
  = <[rc_connectionId (requestContext event) :=
        {| sessionId := uuid4; status := "inactive"; marker := None;
           joinedAt := Some utcnow; username := None |}]> t.
Proof.
  intros Hk. unfold connection.handler, try_except_ClientError, bind,
    table_put_item_if_absent. rewrite Hk. simpl.
  by rewrite get_marker_for_new_active_userr_run.
Qed.

(** ** The seats stay in order along admissions and queue requests *)

Lemma seats_ok_step t e : seats_ok t → seats_ok (step t e).
Proof.
  intros Hok. destruct e as [event utcnow uuid4|event utcnow]; simpl.
  - destruct (t !! rc_connectionId (requestContext event)) as [it|] eqn:Hk.
    + by rewrite (connection_handler_existing _ _ _ _ _ Hk).
    + rewrite (connection_handler_fresh _ _ _ _ Hk).
      apply seats_ok_insert_other; [done|done|]. simpl. eauto.
  - destruct (t !! rc_connectionId (requestContext event)) as [it|] eqn:Hk.
    + destruct (decide (size (statusIndex "active" t) < 2)) as [Hlt|Hge].
      * destruct (joinQueue_handler_active event utcnow t it Hk Hlt)
          as (m & Hm & ->). simpl. by apply seats_ok_promote.
      * rewrite (joinQueue_handler_queued event utcnow t it Hk) by lia. simpl.
        apply seats_ok_insert_other; [done|done|]. simpl. eauto.
    + by rewrite (joinQueue_handler_missing _ _ _ Hk).
Qed.

Lemma seats_ok_foldl es t : seats_ok t → seats_ok (foldl step t es).
Proof.
  revert t. induction es as [|e es IH]; intros t Hok; simpl; [done|].
  by apply IH, seats_ok_step.
Qed.

(** What the invariant says of the active set, by the number of seats taken. *)
Lemma seats_ok_cases t :
  seats_ok t →
  size (active_set t) ≤ 2 ∧
  (size (active_set t) = 2 →
     ∃ k1 k2 a1 a2, k1 ≠ k2 ∧ active_set t = <[k1 := a1]> {[k2 := a2]} ∧
       marker a1 = Some "X" ∧ marker a2 = Some "O") ∧
  (size (active_set t) = 1 →
     ∃ k a, active_set t = {[k := a]} ∧ is_marker (marker a)).
Proof.
  intros [Hix Hsz Hmk Hdi]. split; [done|]. split.
  - intros (k1 & k2 & a1 & a2 & Hne & Heq)%map_size_2.
    assert (H1 : active_set t !! k1 = Some a1).
    { rewrite Heq. apply lookup_insert_eq. }
    assert (H2 : active_set t !! k2 = Some a2).
    { rewrite Heq, lookup_insert_ne by done. apply lookup_singleton_eq. }
    pose proof (Hdi k1 k2 a1 a2 Hne H1 H2) as Hd.
    destruct (Hmk _ _ H1) as [Hm1|Hm1], (Hmk _ _ H2) as [Hm2|Hm2];
      try congruence.
    + by exists k1, k2, a1, a2.
    + exists k2, k1, a2, a1. split; [done|]. split; [|done].
      rewrite Heq. rewrite <-!insert_empty. by apply insert_insert_ne.
  - intros (k & a & Heq)%map_size_1. exists k, a. split; [done|].
    apply (Hmk k). rewrite Heq. apply lookup_singleton_eq.
Qed.

(** ** The promotion pass of [gameOver.py] *)

Lemma promote_user_run t w aw aw' :
  t !! w = Some aw → size (statusIndex "active" t) < 2 →
  ∃ m, utility.get_marker_for_new_active_user t = (t, Ok m) ∧
       gameOver.promote_user (w, aw') t = (<[w := promoted aw m]> t, Ok tt).
Proof.
  intros Hw Hlt.
  destruct (get_marker_for_new_active_user_run t Hlt) as (m & Hm & _).
  exists (free_marker m). split; [done|].
  unfold gameOver.promote_user, try_except_ClientError, bind; simpl.
  rewrite Hm, (update_user_run _ _ _ _ _ _ Hw).
  by rewrite updated_item_promoted.
Qed.

(** A promotion that the store refuses is logged and leaves the table. *)
Lemma promote_user_refused t user :
  t !! user.1 = None → size (statusIndex "active" t) < 2 →
  gameOver.promote_user user t = (t, Ok tt).
Proof.
  intros Hw Hlt.
  destruct (get_marker_for_new_active_user_run t Hlt) as (m & Hm & _).
  unfold gameOver.promote_user, try_except_ClientError, bind; simpl.
  by rewrite Hm, update_user_missing.
Qed.

(** A refused promotion does not stop the loop: the next candidates are
    promoted as if the refused one had not been listed. *)
Lemma for_each_promote_user_refused t user rest :
  t !! user.1 = None → size (statusIndex "active" t) < 2 →
  for_each (user :: rest) gameOver.promote_user t
  = for_each rest gameOver.promote_user t.
Proof.
  intros Hw Hlt. simpl. unfold bind at 1.
  by rewrite promote_user_refused.
Qed.

Lemma fill_active_slots_full t :
  2 ≤ size (statusIndex "active" t) → gameOver.fill_active_slots t = (t, Ok tt).
Proof.
  intros Hge. unfold gameOver.fill_active_slots, bind.
  rewrite count_active_players_run. by rewrite decide_True.
Qed.

Lemma fill_active_slots_run t :
  size (statusIndex "active" t) < 2 →
  gameOver.fill_active_slots t
  = for_each (take (2 - size (statusIndex "active" t))
                (statusIndex_rows "inactive" t))
      gameOver.promote_user t.
Proof.
  intros Hlt. unfold gameOver.fill_active_slots, bind.
  rewrite count_active_players_run. by rewrite decide_False by lia.
Qed.

Lemma fill_active_slots_none_waiting t :
  size (statusIndex "active" t) < 2 → statusIndex_rows "inactive" t = [] →
  gameOver.fill_active_slots t = (t, Ok tt).
Proof.
  intros Hlt Hrows. rewrite fill_active_slots_run by done.
  by rewrite Hrows, take_nil.
Qed.

Lemma statusIndex_rows_lookup s t w aw rest :
  statusIndex_rows s t = (w, aw) :: rest →
  t !! w = Some aw ∧ status aw = s ∧ is_Some (joinedAt aw).
Proof.
  intros Hrows. apply elem_of_statusIndex_rows. rewrite Hrows. left.
Qed.

(** One seat free: the head of the waiting line takes it. *)
Lemma fill_active_slots_one t w aw rest :
  size (statusIndex "active" t) = 1 →
  statusIndex_rows "inactive" t = (w, aw) :: rest →
  ∃ m, utility.get_marker_for_new_active_user t = (t, Ok m) ∧
       gameOver.fill_active_slots t = (<[w := promoted aw m]> t, Ok tt).
Proof.
  intros Hsz Hrows. rewrite fill_active_slots_run by lia.
  rewrite Hsz, Hrows. simpl.
  destruct (statusIndex_rows_lookup _ _ _ _ _ Hrows) as (Hw & _).
  destruct (promote_user_run t w aw aw Hw) as (m & Hm & Hrun); [lia|].
  exists m. split; [done|]. unfold bind. by rewrite Hrun.
Qed.

Lemma statusIndex_rows_NoDup s t : NoDup (statusIndex_rows s t).*1.
Proof.
  rewrite statusIndex_rows_Permutation. apply NoDup_fst_map_to_list.
Qed.

Lemma statusIndex_insert s t k a :
  status a = s → is_Some (joinedAt a) →
  statusIndex s (<[k := a]> t) = <[k := a]> (statusIndex s t).
Proof.
  intros Hs Hj. unfold statusIndex. by rewrite map_filter_insert_True.
Qed.

(** No seat taken and one participant waiting: it is seated with [X]. *)
Lemma fill_active_slots_first t w1 a1 :
  size (statusIndex "active" t) = 0 →
  statusIndex_rows "inactive" t = [(w1, a1)] →
  gameOver.fill_active_slots t = (<[w1 := promoted a1 "X"]> t, Ok tt).
Proof.
  intros Hsz Hrows. rewrite fill_active_slots_run by lia.
  rewrite Hsz, Hrows. simpl.
  destruct (statusIndex_rows_lookup _ _ _ _ _ Hrows) as (Hw & _).
  destruct (promote_user_run t w1 a1 a1 Hw) as (m & Hm & Hrun); [lia|].
  rewrite get_marker_for_new_active_user_none in Hm by done.
  injection Hm as <-. unfold bind. by rewrite Hrun.
Qed.

(** No seat taken and two or more waiting: the first two of the line are
    seated in order, the first with [X] and the second with [O]. *)
Lemma fill_active_slots_two t w1 a1 w2 a2 rest :
  size (statusIndex "active" t) = 0 →
  statusIndex_rows "inactive" t = (w1, a1) :: (w2, a2) :: rest →
  gameOver.fill_active_slots t
  = (<[w2 := promoted a2 "O"]> (<[w1 := promoted a1 "X"]> t), Ok tt).
Proof.
  intros Hsz Hrows. rewrite fill_active_slots_run by lia.
  rewrite Hsz, Hrows. simpl.
  destruct (statusIndex_rows_lookup _ _ _ _ _ Hrows) as (Hw1 & _ & Hj1).
  assert (Hw2 : t !! w2 = Some a2).
  { apply (elem_of_statusIndex_rows "inactive"). rewrite Hrows. set_solver. }
  assert (Hne : w1 ≠ w2).
  { pose proof (statusIndex_rows_NoDup "inactive" t) as Hnd.
    rewrite Hrows in Hnd. simpl in Hnd.
    apply NoDup_cons in Hnd as [Hn _]. set_solver. }
  destruct (promote_user_run t w1 a1 a1 Hw1) as (m & Hm & Hrun); [lia|].
  rewrite get_marker_for_new_active_user_none in Hm by done.
  injection Hm as <-. unfold bind at 1. rewrite Hrun.
  set (t1 := <[w1 := promoted a1 "X"]> t).
  assert (Hact : statusIndex "active" t1 = {[w1 := promoted a1 "X"]}).
  { unfold t1. rewrite statusIndex_insert by done.
    by rewrite (map_size_empty_inv _ Hsz), insert_empty. }
  assert (Hw2' : t1 !! w2 = Some a2).
  { unfold t1. by rewrite lookup_insert_ne. }
  destruct (promote_user_run t1 w2 a2 a2 Hw2') as (m & Hm & Hrun').
  { rewrite Hact, map_size_singleton. lia. }
  rewrite (get_marker_for_new_active_user_one _ _ _ Hact) in Hm.
  injection Hm as <-. unfold bind. by rewrite Hrun'.
Qed.

(** ** Running [gameOver.handler] *)


Lemma statusIndex_lookup s t k a :
  statusIndex s t !! k = Some a ↔
  t !! k = Some a ∧ status a = s ∧ is_Some (joinedAt a).
Proof. unfold statusIndex. by rewrite map_lookup_filter_Some. Qed.





(** ** Running [disconnect.handler] *)

Lemma disconnect_handler_missing event t :
  t !! rc_connectionId (requestContext event) = None →
  disconnect.handler event t
  = (t, Ok {| statusCode := 200; body := Message "No user record found." |}).
Proof.
  intros Hk. unfold disconnect.handler, try_except_ClientError, bind,
    table_get_item. by rewrite Hk.
Qed.

Lemma disconnect_handler_inactive event t it :
  t !! rc_connectionId (requestContext event) = Some it →
  status it ≠ "active" →
  disconnect.handler event t
  = (delete (rc_connectionId (requestContext event)) t,
     Ok {| statusCode := 200;
           body := MessageFor "Disconnected"
                     (rc_connectionId (requestContext event)) |}).
Proof.
  intros Hk Hs. unfold disconnect.handler, try_except_ClientError, bind,
    table_get_item. rewrite Hk. simpl. by rewrite decide_False.
Qed.

(** The promotion pass of [disconnect.py] stops at the unbound name [Key]
    whenever a seat is free. *)
Lemma disconnect_fill_active_slots_raises t :
  size (statusIndex "active" t) < 2 →
  disconnect.fill_active_slots t = (t, Raise (NameError "Key")).
Proof.
  intros Hlt. unfold disconnect.fill_active_slots, bind.
  rewrite count_active_players_run. by rewrite decide_False by lia.
Qed.

Lemma disconnect_handler_active event t it :
  t !! rc_connectionId (requestContext event) = Some it →
  status it = "active" →
  size (statusIndex "active" (delete (rc_connectionId (requestContext event)) t)) < 2 →
  disconnect.handler event t
  = (delete (rc_connectionId (requestContext event)) t, Raise (NameError "Key")).
Proof.
  intros Hk Hs Hlt. unfold disconnect.handler, try_except_ClientError, bind,
    table_get_item. rewrite Hk. simpl. rewrite decide_True by done.
  by rewrite disconnect_fill_active_slots_raises.
Qed.

(** ** The snapshot of [streamDB.py] *)

Lemma StronglySorted_lookup_lt {A} (R : relation A) l i j x y :
  StronglySorted R l → l !! i = Some x → l !! j = Some y → i < j → R x y.
Proof.
  intros Hs. revert i j. induction Hs as [|z l Hs IH Hz]; intros i j Hi Hj Hlt.
  - by rewrite lookup_nil in Hi.
  - destruct j as [|j]; [lia|]. destruct i as [|i]; simplify_eq/=.
    + eapply Forall_forall in Hz; [done|]. by eapply list_elem_of_lookup_2.
    + eapply (IH i j); [done|done|lia].
Qed.

Lemma datetime_leb_total a b :
  streamDB.datetime_leb a b = true ∨ streamDB.datetime_leb b a = true.
Proof.
  destruct a as [x|x], b as [y|y]; simpl; auto.
  - rewrite !N.leb_le. lia.
  - rewrite !Z.leb_le. lia.
Qed.

Lemma datetime_leb_trans a b c :
  streamDB.datetime_leb a b = true → streamDB.datetime_leb b c = true →
  streamDB.datetime_leb a c = true.
Proof.
  destruct a as [x|x], b as [y|y], c as [z|z]; simpl; try done.
  - rewrite !N.leb_le. lia.
  - rewrite !Z.leb_le. lia.
Qed.

Lemma datetime_leb_refl a : streamDB.datetime_leb a a = true.
Proof. destruct a; simpl; [apply N.leb_refl|apply Z.leb_refl]. Qed.

Lemma datetime_leb_le a b :
  streamDB.is_aware a = streamDB.is_aware b →
  streamDB.datetime_leb a b = true → streamDB.datetime_le a b.
Proof.
  destruct a as [x|x], b as [y|y]; simpl; try done.
  - intros _. by rewrite N.leb_le.
  - intros _. by rewrite Z.leb_le.
Qed.

(** Two keys of a kind compare, and [<] is the converse of [<=] there. *)
Lemma datetime_lt_same_kind a b :
  streamDB.is_aware a = streamDB.is_aware b →
  streamDB.datetime_lt b a = Ok (negb (streamDB.datetime_leb a b)).
Proof.
  destruct a as [x|x], b as [y|y]; simpl; try done; intros _; f_equal.
  - apply N.ltb_antisym.
  - apply Z.ltb_antisym.
Qed.

Lemma datetime_lt_mixed a b :
  streamDB.is_aware a ≠ streamDB.is_aware b →
  streamDB.datetime_lt a b
  = Raise (TypeError "can't compare offset-naive and offset-aware datetimes").
Proof. by destruct a, b. Qed.

Lemma comparable_same_kind keys :
  streamDB.comparable keys = true →
  ∀ a b, a ∈ keys → b ∈ keys → streamDB.is_aware a = streamDB.is_aware b.
Proof.
  unfold streamDB.comparable. intros Hc a b Ha Hb.
  apply orb_true_iff in Hc as [Hc|Hc]; rewrite forallb_forall in Hc.
  - apply list_elem_of_In in Ha, Hb. apply Hc in Ha, Hb.
    destruct (streamDB.is_aware a), (streamDB.is_aware b); done.
  - apply list_elem_of_In in Ha, Hb. apply Hc in Ha, Hb. congruence.
Qed.

Lemma same_kind_comparable keys :
  (∀ a b, a ∈ keys → b ∈ keys → streamDB.is_aware a = streamDB.is_aware b) →
  streamDB.comparable keys = true.
Proof.
  intros Hsame. unfold streamDB.comparable. apply orb_true_iff.
  destruct keys as [|k keys]; [by left|].
  destruct (streamDB.is_aware k) eqn:Hk; [right|left];
    apply forallb_forall; intros a Ha%list_elem_of_In;
    rewrite (Hsame a k Ha) by left; by rewrite Hk.
Qed.

Section sorted_facts.
Context {A : Type} (key : A -> streamDB.datetime).

Lemma insert_row_run x l :
  Forall (λ y, streamDB.is_aware (key x) = streamDB.is_aware (key y)) l →
  streamDB.insert_row key x l
  = Ok (insert_sorted key streamDB.datetime_leb x l).
Proof.
  induction 1 as [|y l Hy Hl IH]; simpl; [done|].
  rewrite (datetime_lt_same_kind _ _ Hy).
  destruct (streamDB.datetime_leb (key x) (key y)); simpl; [done|].
  by rewrite IH.
Qed.

(** Keys that compare: [sorted] is the stable sort. *)
Lemma sorted_run l :
  streamDB.comparable (key <$> l) = true →
  streamDB.sorted key l = Ok (stable_sort key streamDB.datetime_leb l).
Proof.
  induction l as [|x l IH]; intros Hc; simpl; [done|].
  pose proof (comparable_same_kind _ Hc) as Hsame.
  rewrite IH.
  - apply insert_row_run. apply Forall_forall. intros y Hy.
    apply stable_sort_elem_of in Hy.
    apply Hsame; [left|right]. by apply list_elem_of_fmap_2.
  - apply same_kind_comparable. intros a b Ha Hb.
    apply Hsame; by right.
Qed.

(** A naive and an aware key among them: [sorted] raises. *)
Lemma sorted_raises l :
  streamDB.comparable (key <$> l) = false →
  streamDB.sorted key l
  = Raise (TypeError "can't compare offset-naive and offset-aware datetimes").
Proof.
  induction l as [|x l IH]; intros Hc; [done|]. simpl.
  destruct (streamDB.comparable (key <$> l)) eqn:Hl; [|by rewrite IH].
  rewrite (sorted_run l Hl).
  pose proof (comparable_same_kind _ Hl) as Hsame.
  destruct (stable_sort key streamDB.datetime_leb l) as [|y s] eqn:Hs.
  { apply (f_equal length) in Hs. rewrite stable_sort_length in Hs.
    destruct l; [|done]. unfold streamDB.comparable in Hc. simpl in Hc.
    by destruct (streamDB.is_aware (key x)). }
  assert (Hy : y ∈ l).
  { apply (stable_sort_elem_of key streamDB.datetime_leb). rewrite Hs. left. }
  simpl. rewrite datetime_lt_mixed; [done|].
  intros Hkind. rewrite same_kind_comparable in Hc; [done|].
  intros a b [->|Ha]%elem_of_cons [->|Hb]%elem_of_cons.
  - done.
  - rewrite <-Hkind. apply Hsame; [|done]. by apply list_elem_of_fmap_2.
  - rewrite <-Hkind. apply Hsame; [done|]. by apply list_elem_of_fmap_2.
  - by apply Hsame.
Qed.

End sorted_facts.

Lemma get_live_queue_data_run fromisoformat t :
  streamDB._get_live_queue_data fromisoformat t
  = (t, streamDB.sorted (streamDB.parse_joined_at fromisoformat)
          (map_to_list t)).
Proof.
  unfold streamDB._get_live_queue_data, bind, table_scan, pure_step.
  by destruct (streamDB.sorted _ _).
Qed.

Lemma StronglySorted_weaken {A} (R1 R2 : relation A) l :
  (∀ x y, x ∈ l → y ∈ l → R1 x y → R2 x y) →
  StronglySorted R1 l → StronglySorted R2 l.
Proof.
  intros Himpl Hs. induction Hs as [|x l Hs IH Hx]; constructor.
  - apply IH. intros y z Hy Hz. apply Himpl; by right.
  - apply Forall_forall. intros y Hy. apply Himpl; [left|by right|].
    by eapply Forall_forall in Hx.
Qed.

(** * The claims *)

(** C1.  Along every sequence of admissions ([connection.handler]) and queue
    requests ([joinQueue.handler]) from the empty table, after each
    transition at most two participants are active; when exactly two are
    active one holds marker [X] and the other [O]; when exactly one is
    active its marker is [X] or [O]. *)
Theorem seats_invariant (es : list Transition) :
  size (active_set (run es)) ≤ 2 ∧
  (size (active_set (run es)) = 2 →
     ∃ k1 k2 a1 a2, k1 ≠ k2 ∧ active_set (run es) = <[k1 := a1]> {[k2 := a2]} ∧
       marker a1 = Some "X" ∧ marker a2 = Some "O") ∧
  (size (active_set (run es)) = 1 →
     ∃ k a, active_set (run es) = {[k := a]} ∧
       (marker a = Some "X" ∨ marker a = Some "O")).
Proof.
  apply seats_ok_cases. unfold run. apply seats_ok_foldl, seats_ok_empty.
Qed.

Lemma seats_invariant_witness :
  size (active_set (run three_arrivals)) = 2 ∧
  ∃ k1 k2 a1 a2, k1 ≠ k2 ∧
    active_set (run three_arrivals) = <[k1 := a1]> {[k2 := a2]} ∧
    marker a1 = Some "X" ∧ marker a2 = Some "O".
Proof.
  split; [reflexivity|].
  apply (seats_invariant three_arrivals). reflexivity.
Defined.

(** C2 fails as stated: with two participants active
    [get_marker_for_new_active_userr] returns a marker, it does not signal
    that the seats are full. *)
Lemma get_marker_two_active_returns :
  size (statusIndex "active" two_playing) = 2 ∧
  connection.get_marker_for_new_active_userr two_playing
  = (two_playing, Ok "O") ∧
  (connection.get_marker_for_new_active_userr two_playing).2 ≠ Raise SlotsFull.
Proof. split; [reflexivity|]. split; [reflexivity|]. discriminate. Qed.

(** C2, amended.  [get_marker_for_new_active_userr] never changes the table
    and always returns [X] or [O]: [X] when no participant is active; the
    marker not in use when exactly one participant is active (with marker [X]
    or [O]); and, when more are active, [O] if the first active row carries
    [X] and [X] otherwise. *)
Theorem get_marker_for_new_active_userr_spec (t : Table) :
  ∃ m, connection.get_marker_for_new_active_userr t = (t, Ok m) ∧
    (m = "X" ∨ m = "O") ∧
    (size (statusIndex "active" t) = 0 → m = "X") ∧
    (∀ k a, statusIndex "active" t = {[k := a]} →
       (marker a = Some "X" → m = "O") ∧ (marker a = Some "O" → m = "X")) ∧
    (∀ p rest, statusIndex_rows "active" t = p :: rest →
       m = if decide (marker p.2 = Some "X") then "O" else "X").
Proof.
  eexists. split; [apply get_marker_for_new_active_userr_run|].
  split; [|split; [|split]].
  - destruct (statusIndex_rows "active" t); [by left|].
    apply free_marker_is_marker.
  - intros Hsz. by rewrite statusIndex_rows_nil.
  - intros k a Heq. rewrite (statusIndex_rows_singleton _ _ _ _ Heq). simpl.
    by split; intros ->.
  - intros p rest ->. destruct (marker p.2) as [m|]; simpl; [|done].
    unfold free_marker. case_decide as Hm.
    + injection Hm as ->. done.
    + destruct (String.eqb_spec m "X") as [->|]; done.
Qed.

Lemma get_marker_for_new_active_userr_witness :
  connection.get_marker_for_new_active_userr one_playing = (one_playing, Ok "X").
Proof.
  destruct (get_marker_for_new_active_userr_spec one_playing)
    as (m & Hrun & _ & _ & Hone & _).
  rewrite Hrun. f_equal. f_equal.
  apply (Hone "P2" P2); reflexivity.
Defined.

(** C3.  [joinQueue.handler] for a participant that has a record: when
    fewer than two participants are active, the record becomes active with
    the marker that [get_marker_for_new_active_user] computes; otherwise it
    becomes inactive without a marker and its [joinedAt] is the time of the
    request. *)
Theorem joinQueue_places_participant event utcnow (t : Table) it :
  t !! rc_connectionId (requestContext event) = Some it →
  ∃ n, utility.count_active_players t = (t, Ok n) ∧
    (n < 2 →
       ∃ m, utility.get_marker_for_new_active_user t = (t, Ok m) ∧
         joinQueue.handler event utcnow t
         = (<[rc_connectionId (requestContext event) :=
                {| sessionId := sessionId it; status := "active";
                   marker := Some m; joinedAt := joinedAt it;
                   username := username it |}]> t,
            Ok {| statusCode := 200; body := JoinQueue "active" (Some m) |})) ∧
    (2 ≤ n →
       joinQueue.handler event utcnow t
       = (<[rc_connectionId (requestContext event) :=
              {| sessionId := sessionId it; status := "inactive";
                 marker := None; joinedAt := Some utcnow;
                 username := username it |}]> t,
          Ok {| statusCode := 200; body := JoinQueue "inactive" None |})).
Proof.
  intros Hk. eexists. split; [apply count_active_players_run|]. split.
  - intros Hlt. by apply joinQueue_handler_active.
  - intros Hge. by apply joinQueue_handler_queued.
Qed.

Lemma joinQueue_places_participant_witness :
  (joinQueue.handler (request "P3" None) "2024-05-01T10:30:00" one_waiting).1
    !! "P3"
  = Some (participant "s-3" "inactive" None "2024-05-01T10:30:00") ∧
  (joinQueue.handler (request "P3" None) "2024-05-01T10:30:00" one_playing).1
    !! "P3"
  = Some (participant "s-3" "active" (Some "X") "2024-05-01T10:00:10.250000").
Proof.
  split.
  - destruct (joinQueue_places_participant (request "P3" None)
                "2024-05-01T10:30:00" one_waiting P3 eq_refl)
      as (n & Hn & _ & Hq).
    injection Hn as <-. rewrite Hq by (vm_compute; lia). reflexivity.
  - destruct (joinQueue_places_participant (request "P3" None)
                "2024-05-01T10:30:00" one_playing P3 eq_refl)
      as (n & Hn & Ha & _).
    injection Hn as <-. destruct Ha as (m & Hm & ->); [vm_compute; lia|].
    injection Hm as <-. reflexivity.
Defined.

(** C4.  On a departure of an active participant with somebody waiting,
    [disconnect.handler] deletes the record and then stops in its promotion
    pass at the unbound name [Key]: the waiting participant stays inactive
    and one seat stays empty.  The same pass in [gameOver.py], where [Key]
    is imported, seats the waiting participant with the free marker. *)
Theorem disconnect_active_promotes_nobody :
  disconnect.handler (request "P1" None) one_waiting
  = (one_playing, Raise (NameError "Key")) ∧
  one_playing !! "P3" = Some P3 ∧ status P3 = "inactive" ∧
  size (active_set one_playing) = 1 ∧
  gameOver.fill_active_slots one_playing
  = (<["P3" := promoted P3 "X"]> one_playing, Ok tt).
Proof.
  assert (Hdel : delete "P1" one_waiting = one_playing) by reflexivity.
  split; [|split; [reflexivity|split; [reflexivity|split; [reflexivity|]]]].
  - rewrite <-Hdel.
    apply (disconnect_handler_active (request "P1" None) one_waiting P1);
      [reflexivity|reflexivity|vm_compute; lia].
  - destruct (fill_active_slots_one one_playing "P3" P3 [])
      as (m & Hm & ->); [reflexivity|reflexivity|].
    rewrite (get_marker_for_new_active_user_one one_playing "P2" P2) in Hm
      by reflexivity.
    by injection Hm as <-.
Qed.




(** C6.  [gameOver.handler] with an absent or empty [loserId] answers 400
    with the missing-loser error and leaves the table as it was. *)
Theorem gameOver_missing_loser event utcnow (t : Table) :
  body_loserId event = None ∨ body_loserId event = Some "" →
  gameOver.handler event utcnow t
  = (t, Ok {| statusCode := 400; body := Error "Missing loserId parameter" |}).
Proof. unfold gameOver.handler. by intros [-> | ->]. Qed.

Lemma gameOver_missing_loser_witness :
  gameOver.handler (request "P1" None) "2024-05-01T11:00:00" one_waiting
  = (one_waiting,
     Ok {| statusCode := 400; body := Error "Missing loserId parameter" |}) ∧
  gameOver.handler (request "P1" (Some "")) "2024-05-01T11:00:00" one_waiting
  = (one_waiting,
     Ok {| statusCode := 400; body := Error "Missing loserId parameter" |}).
Proof.
  split.
  - apply (gameOver_missing_loser (request "P1" None)). by left.
  - apply (gameOver_missing_loser (request "P1" (Some ""))). by right.
Defined.

(** C7.  [disconnect.handler] for a participant that is not active answers
    200.  Without a record the table stays as it is; with an inactive
    record only that record is deleted and no promotion pass runs.  In both
    cases the active set, with its markers, and every other record are
    unchanged. *)
Theorem disconnect_not_active_frame event (t : Table) :
  (∀ it, t !! rc_connectionId (requestContext event) = Some it →
         status it ≠ "active") →
  ∃ resp, disconnect.handler event t
          = (delete (rc_connectionId (requestContext event)) t, Ok resp) ∧
    statusCode resp = 200 ∧
    (t !! rc_connectionId (requestContext event) = None →
       delete (rc_connectionId (requestContext event)) t = t) ∧
    active_set (delete (rc_connectionId (requestContext event)) t)
    = active_set t ∧
    (∀ k, k ≠ rc_connectionId (requestContext event) →
          delete (rc_connectionId (requestContext event)) t !! k = t !! k).
Proof.
  intros Hnot. set (cid := rc_connectionId (requestContext event)) in *.
  assert (Hframe : active_set (delete cid t) = active_set t).
  { unfold active_set. apply map_filter_delete_not. intros it Hk. by apply Hnot. }
  destruct (t !! cid) as [it|] eqn:Hk.
  - eexists. split; [by apply (disconnect_handler_inactive _ _ it), Hnot|].
    split; [done|]. split; [done|]. split; [done|].
    intros k Hne. by apply lookup_delete_ne.
  - eexists. rewrite delete_id by done.
    split; [by apply disconnect_handler_missing|]. done.
Qed.

Lemma disconnect_not_active_frame_witness :
  disconnect.handler (request "P3" None) one_waiting
  = (delete "P3" one_waiting,
     Ok {| statusCode := 200; body := MessageFor "Disconnected" "P3" |}) ∧
  active_set (delete "P3" one_waiting) = active_set one_waiting.
Proof.
  destruct (disconnect_not_active_frame (request "P3" None) one_waiting)
    as (resp & Hrun & _ & _ & Hactive & _).
  - intros it Hit. change (one_waiting !! "P3" = Some it) in Hit.
    assert (HP3 : one_waiting !! "P3" = Some P3) by reflexivity.
    assert (it = P3) as -> by congruence. done.
  - split; [reflexivity|exact Hactive].
Defined.

(** C8.  [connection.handler] with an identifier that already has a record:
    the conditional [put_item] is refused and the table, so the record too,
    is as it was. *)
Theorem connection_reused_id_unchanged event utcnow uuid4 (t : Table) it :
  t !! rc_connectionId (requestContext event) = Some it →
  connection.handler event utcnow uuid4 t
  = (t, Ok ({| statusCode := 500;
               body := Error "ConditionalCheckFailedException" |}, [])) ∧
  (connection.handler event utcnow uuid4 t).1
    !! rc_connectionId (requestContext event) = Some it.
Proof.
  intros Hk. rewrite (connection_handler_existing _ _ _ _ _ Hk). done.
Qed.

Lemma connection_reused_id_unchanged_witness :
  (connection.handler (request "P1" None) "2024-05-01T12:00:00" "s-9"
     one_waiting).1 !! "P1" = Some P1.
Proof.
  apply (connection_reused_id_unchanged (request "P1" None)
           "2024-05-01T12:00:00" "s-9" one_waiting P1).
  reflexivity.
Defined.

(** C9.  The outcome of [joinQueue.handler] does not depend on the [marker]
    entry of the payload: two events that differ in that entry only give the
    same table and the same response, marker included. *)
Theorem joinQueue_ignores_payload_marker event m1 m2 utcnow (t : Table) :
  joinQueue.handler (with_marker event m1) utcnow t
  = joinQueue.handler (with_marker event m2) utcnow t.
Proof. reflexivity. Qed.

(** The admission does send a marker along: the one it computed from the
    active rows at that time. *)
Lemma connection_handler_forwards_marker event utcnow uuid4 (t : Table) :
  t !! rc_connectionId (requestContext event) = None →
  ∃ t' m resp payload rest,
    connection.handler event utcnow uuid4 t
    = (t', Ok (resp, {| FunctionName := "joinQueue"; Payload := payload |}
                       :: rest)) ∧
    connection.get_marker_for_new_active_userr t' = (t', Ok m) ∧
    rc_marker (requestContext payload) = Some m ∧
    rc_connectionId (requestContext payload)
    = rc_connectionId (requestContext event).
Proof.
  intros Hk. unfold connection.handler, try_except_ClientError, bind,
    table_put_item_if_absent. rewrite Hk. simpl.
  rewrite get_marker_for_new_active_userr_run. simpl.
  eexists _, _, _, _, _. split; [reflexivity|].
  rewrite get_marker_for_new_active_userr_run. done.
Qed.

(** C10 fails as stated, twice.  At a tie: a record stamped exactly
    [datetime.min] has the key of a record without a join time, the sort is
    stable, and the unstamped record stays behind the stamped one.  And
    with a UTC offset: the stamp parses to an aware datetime, the record
    without a join time has the naive key [datetime.min], [sorted] raises
    [TypeError] when it compares the two, and there is no snapshot. *)
Lemma snapshot_tie_and_offset :
  (streamDB._get_live_queue_data streamDB.fromisoformat_text stamped_min
   = (stamped_min, Ok [("A", P6); ("B", P5)]) ∧
   joinedAt P5 = None ∧
   streamDB.fromisoformat_text
     (streamDB.replace_Z (default "" (joinedAt P6)))
   = Some streamDB.datetime_min) ∧
  (streamDB._get_live_queue_data streamDB.fromisoformat_text stamped_offset
   = (stamped_offset,
      Raise (TypeError "can't compare offset-naive and offset-aware datetimes")) ∧
   joinedAt P5 = None ∧
   streamDB.fromisoformat_text
     (streamDB.replace_Z (default "" (joinedAt P7)))
   = Some (streamDB.aware 63850154400000000)).
Proof. repeat split; reflexivity. Qed.

(** C10, amended.  [_get_live_queue_data] never changes the table.  When the
    parsed join times of the records include a naive one (the fallback
    [datetime.min] of an absent, empty or unparseable [joinedAt] is naive)
    and an offset-aware one, it raises [TypeError] and there is no snapshot.
    Otherwise the snapshot holds every record of the table once, in
    ascending order of the parsed [joinedAt]; records with equal keys keep
    the order of the scan; a [joinedAt] that is absent, empty or does not
    parse counts as [datetime.min], and such a record comes before every
    record whose [joinedAt] parses to another time. *)
Theorem get_live_queue_data_sorted fromisoformat (t : Table) :
  fromisoformat "" = None →
  (streamDB.comparable
     (streamDB.parse_joined_at fromisoformat <$> map_to_list t) = false →
   streamDB._get_live_queue_data fromisoformat t
   = (t, Raise (TypeError "can't compare offset-naive and offset-aware datetimes"))) ∧
  (streamDB.comparable
     (streamDB.parse_joined_at fromisoformat <$> map_to_list t) = true →
   ∃ l, streamDB._get_live_queue_data fromisoformat t = (t, Ok l) ∧
    l ≡ₚ map_to_list t ∧
    (∀ k a, (k, a) ∈ l ↔ t !! k = Some a) ∧
    StronglySorted
      (λ r1 r2, streamDB.datetime_le
                  (streamDB.parse_joined_at fromisoformat r1)
                  (streamDB.parse_joined_at fromisoformat r2)) l ∧
    (∀ d, filter (λ r, streamDB.parse_joined_at fromisoformat r = d) l
          = filter (λ r, streamDB.parse_joined_at fromisoformat r = d)
              (map_to_list t)) ∧
    (∀ r, joinedAt r.2 = None ∨ joinedAt r.2 = Some "" ∨
          streamDB.unparseable fromisoformat r →
          streamDB.parse_joined_at fromisoformat r = streamDB.datetime_min) ∧
    (∀ i j r1 r2 d,
       l !! i = Some r1 → l !! j = Some r2 →
       joinedAt r1.2 = None ∨ joinedAt r1.2 = Some "" ∨
         streamDB.unparseable fromisoformat r1 →
       fromisoformat (streamDB.replace_Z (default "" (joinedAt r2.2))) = Some d →
       d ≠ streamDB.datetime_min →
       i < j)).
Proof.
  intros Hempty. rewrite get_live_queue_data_run.
  set (key := streamDB.parse_joined_at fromisoformat).
  split; [intros Hc; by rewrite sorted_raises|].
  intros Hc. rewrite (sorted_run key _ Hc).
  set (l := stable_sort key streamDB.datetime_leb (map_to_list t)).
  exists l. split; [done|].
  assert (Hperm : l ≡ₚ map_to_list t) by apply stable_sort_Permutation.
  assert (Hkind : ∀ r1 r2, r1 ∈ l → r2 ∈ l →
            streamDB.is_aware (key r1) = streamDB.is_aware (key r2)).
  { intros r1 r2 H1 H2. rewrite Hperm in H1, H2.
    apply (comparable_same_kind _ Hc); by apply list_elem_of_fmap_2. }
  assert (Hsorted : StronglySorted
            (λ r1 r2, streamDB.datetime_le (key r1) (key r2)) l).
  { eapply StronglySorted_weaken;
      [|apply (stable_sort_StronglySorted key streamDB.datetime_leb
                 datetime_leb_total datetime_leb_trans)].
    intros r1 r2 H1 H2. unfold key_le. apply datetime_leb_le. by apply Hkind. }
  assert (Hmin : ∀ r, joinedAt r.2 = None ∨ joinedAt r.2 = Some "" ∨
            streamDB.unparseable fromisoformat r →
            key r = streamDB.datetime_min).
  { intros r Hr. unfold key, streamDB.parse_joined_at.
    destruct Hr as [Hr|[Hr|Hr]].
    - rewrite Hr. simpl. by rewrite Hempty.
    - rewrite Hr. simpl. by rewrite Hempty.
    - unfold streamDB.unparseable in Hr. by rewrite Hr. }
  split; [done|]. split.
  { intros k a. by rewrite Hperm, elem_of_map_to_list. }
  split; [done|]. split.
  { intros d. apply stable_sort_filter_key, datetime_leb_refl. }
  split; [done|].
  intros i j r1 r2 d Hi Hj Hr1 Hr2 Hd.
  assert (Hk2 : key r2 = d).
  { unfold key, streamDB.parse_joined_at. by rewrite Hr2. }
  destruct (decide (i < j)) as [|Hge]; [done|]. exfalso.
  destruct (decide (i = j)) as [->|Hne].
  - rewrite Hi in Hj. injection Hj as <-. rewrite (Hmin r1 Hr1) in Hk2. done.
  - pose proof (StronglySorted_lookup_lt _ l j i r2 r1 Hsorted Hj Hi) as Hle.
    simpl in Hle. rewrite (Hmin r1 Hr1), Hk2 in Hle.
    destruct d as [n|z]; simpl in Hle; [|apply Hle; lia].
    apply Hd. unfold streamDB.datetime_min. f_equal. lia.
Qed.

Lemma get_live_queue_data_sorted_witness :
  streamDB._get_live_queue_data streamDB.fromisoformat_text with_unstamped
  = (with_unstamped, Ok [("P5", P5); ("P1", P1); ("P3", P3)]) ∧
  streamDB._get_live_queue_data streamDB.fromisoformat_text stamped_offset
  = (stamped_offset,
     Raise (TypeError "can't compare offset-naive and offset-aware datetimes")).
Proof.
  split.
  - destruct (get_live_queue_data_sorted streamDB.fromisoformat_text
                with_unstamped eq_refl) as (_ & Hsnapshot).
    destruct Hsnapshot as (l & Hrun & _); [reflexivity|].
    rewrite Hrun. injection Hrun as <-. reflexivity.
  - apply (get_live_queue_data_sorted streamDB.fromisoformat_text
             stamped_offset eq_refl). reflexivity.
Defined.

(** * Further properties of the handlers *)

(** ** What a promotion pass can touch *)

Lemma get_marker_for_new_active_user_table t :
  (utility.get_marker_for_new_active_user t).1 = t.
Proof.
  unfold utility.get_marker_for_new_active_user, bind,
    table_query_statusIndex; simpl.
  by destruct (statusIndex_rows "active" t) as [|? [|? ?]].
Qed.

Lemma promote_user_table user t :
  (gameOver.promote_user user t).1 = t ∨
  ∃ a, (gameOver.promote_user user t).1 = <[user.1 := a]> t.
Proof.
  unfold gameOver.promote_user, try_except_ClientError, bind; simpl.
  pose proof (get_marker_for_new_active_user_table t) as Hm.
  destruct (utility.get_marker_for_new_active_user t) as [t0 [m|[code|name| |message]]];
    simpl in Hm; subst t0; simpl; auto.
  unfold utility.update_user. destruct (t !! user.1) as [it|]; simpl; eauto.
Qed.

Lemma for_each_promote_user_frame rows t k :
  k ∉ rows.*1 →
  (for_each rows gameOver.promote_user t).1 !! k = t !! k.
Proof.
  revert t. induction rows as [|user rows IH]; intros t Hk; simpl; [done|].
  apply not_elem_of_cons in Hk as [Hne Hk].
  unfold bind at 1.
  destruct (promote_user_table user t) as [Heq|[a Heq]];
    destruct (gameOver.promote_user user t) as [t1 [[]|e]];
    simpl in Heq; subst t1; simpl.
  - by apply IH.
  - done.
  - rewrite IH by done. by apply lookup_insert_ne.
  - by apply lookup_insert_ne.
Qed.

Lemma fill_active_slots_table t :
  (gameOver.fill_active_slots t).1 = t ∨
  (gameOver.fill_active_slots t).1
  = (for_each (candidates t) gameOver.promote_user t).1.
Proof.
  destruct (decide (size (statusIndex "active" t) < 2)) as [Hlt|Hge].
  - right. by rewrite fill_active_slots_run.
  - left. by rewrite fill_active_slots_full by lia.
Qed.

Lemma elem_of_candidates t k a :
  (k, a) ∈ candidates t →
  t !! k = Some a ∧ status a = "inactive" ∧ is_Some (joinedAt a).
Proof.
  intros Hin. apply elem_of_statusIndex_rows.
  unfold candidates in Hin.
  rewrite <-(take_drop (2 - size (statusIndex "active" t))
               (statusIndex_rows "inactive" t)).
  apply elem_of_app. by left.
Qed.

Lemma fill_active_slots_frame t k :
  (∀ a, t !! k = Some a → status a ≠ "inactive") →
  (gameOver.fill_active_slots t).1 !! k = t !! k.
Proof.
  intros Hk. destruct (fill_active_slots_table t) as [-> | ->]; [done|].
  apply for_each_promote_user_frame.
  intros ([k' a] & Heq & Hin)%list_elem_of_fmap. simpl in Heq. subst k'.
  apply elem_of_candidates in Hin as (Hka & Hs & _). by eapply Hk.
Qed.

Lemma gameOver_handler_table event utcnow t :
  (gameOver.handler event utcnow t).1 = t ∨
  ∃ l it, body_loserId event = Some l ∧ t !! l = Some it ∧
    (gameOver.handler event utcnow t).1
    = (gameOver.fill_active_slots (<[l := queued it utcnow]> t)).1.
Proof.
  unfold gameOver.handler.
  destruct (gameOver.not_ (body_loserId event)) eqn:Hnot; [by left|].
  destruct (body_loserId event) as [l|] eqn:Hl; [|done]. simpl.
  unfold try_except_ClientError, bind.
  destruct (t !! l) as [it|] eqn:Hk.
  - right. exists l, it. split; [done|]. split; [done|].
    rewrite (update_user_run _ _ _ _ _ _ Hk). simpl.
    change (utility.updated_item it "inactive" (Some "") (Some utcnow))
      with (queued it utcnow).
    by destruct (gameOver.fill_active_slots (<[l:=queued it utcnow]> t))
      as [t2 [[]|[code|name| |message]]].
  - left. by rewrite update_user_missing.
Qed.

(** ** What a promotion pass does *)

Lemma statusIndex_active_promote t w aw m :
  t !! w = Some aw → status aw = "inactive" → is_Some (joinedAt aw) →
  size (statusIndex "active" (<[w := promoted aw m]> t))
  = S (size (statusIndex "active" t)).
Proof.
  intros Hw Hs Hj. rewrite statusIndex_insert by done.
  apply map_size_insert_None, eq_None_not_Some.
  intros [a' (Ha' & Hs' & _)%statusIndex_lookup]. congruence.
Qed.

(** Promoting waiting rows one after the other while seats are free: each is
    seated, the number of active rows grows by one per row, and the seats
    stay in order. *)
Lemma for_each_promote_user_run rows t :
  NoDup rows.*1 →
  (∀ w aw, (w, aw) ∈ rows →
     t !! w = Some aw ∧ status aw = "inactive" ∧ is_Some (joinedAt aw)) →
  size (statusIndex "active" t) + length rows ≤ 2 →
  ∃ t', for_each rows gameOver.promote_user t = (t', Ok tt) ∧
    (∀ w aw, (w, aw) ∈ rows → ∃ m, t' !! w = Some (promoted aw m)) ∧
    size (statusIndex "active" t')
    = size (statusIndex "active" t) + length rows ∧
    (seats_ok t → seats_ok t').
Proof.
  revert t. induction rows as [|[w aw] rows IH]; intros t Hnd Hrows Hsz.
  { exists t. simpl. split; [done|]. split; [|split; [lia|done]].
    intros w aw Hin. by apply elem_of_nil in Hin. }
  simpl in Hnd, Hsz. apply NoDup_cons in Hnd as [Hw Hnd].
  destruct (Hrows w aw) as (Hlk & Hs & Hj); [left|].
  destruct (promote_user_run t w aw aw Hlk) as (m & Hm & Hrun); [lia|].
  set (t1 := <[w := promoted aw m]> t) in *.
  assert (Hsz1 : size (statusIndex "active" t1)
                 = S (size (statusIndex "active" t))).
  { by apply statusIndex_active_promote. }
  destruct (IH t1 Hnd) as (t' & Hrun' & Hprom & Hsz' & Hok); [|lia|].
  { intros w' aw' Hin. destruct (Hrows w' aw') as (Hlk' & Hrest); [by right|].
    split; [|done]. unfold t1. rewrite lookup_insert_ne; [done|].
    intros ->. apply Hw, list_elem_of_fmap. by exists (w', aw'). }
  exists t'. split.
  { simpl. unfold bind at 1. by rewrite Hrun. }
  split; [|split].
  - intros w' aw' [Heq|Hin]%elem_of_cons; [|by apply Hprom].
    injection Heq as -> ->. exists m.
    pose proof (for_each_promote_user_frame rows t1 w Hw) as Hframe.
    rewrite Hrun' in Hframe. simpl in Hframe. rewrite Hframe.
    apply lookup_insert_eq.
  - rewrite Hsz', Hsz1. simpl. lia.
  - intros Hseats. apply Hok. apply seats_ok_promote; [done|done|lia|done].
Qed.

Lemma candidates_NoDup t : NoDup (candidates t).*1.
Proof.
  unfold candidates. rewrite fmap_take.
  eapply sublist_NoDup; [apply statusIndex_rows_NoDup|apply sublist_take].
Qed.

Lemma candidates_length t :
  length (candidates t)
  = min (2 - size (statusIndex "active" t)) (size (statusIndex "inactive" t)).
Proof.
  unfold candidates. by rewrite length_take, statusIndex_rows_length.
Qed.

(** One pass with a free seat: it returns, seats every candidate and touches
    no other record. *)
Lemma fill_active_slots_spec t :
  size (statusIndex "active" t) < 2 →
  ∃ t', gameOver.fill_active_slots t = (t', Ok tt) ∧
    (∀ k, k ∉ (candidates t).*1 → t' !! k = t !! k) ∧
    (∀ w aw, (w, aw) ∈ candidates t → ∃ m, t' !! w = Some (promoted aw m)) ∧
    size (statusIndex "active" t')
    = size (statusIndex "active" t) + length (candidates t) ∧
    (seats_ok t → seats_ok t').
Proof.
  intros Hlt.
  destruct (for_each_promote_user_run (candidates t) t)
    as (t' & Hrun & Hprom & Hsz & Hok).
  - apply candidates_NoDup.
  - intros w aw. apply elem_of_candidates.
  - rewrite candidates_length. lia.
  - exists t'. rewrite fill_active_slots_run by done. fold (candidates t).
    split; [done|]. split; [|done].
    intros k Hk. pose proof (for_each_promote_user_frame _ t k Hk) as Hframe.
    by rewrite Hrun in Hframe.
Qed.

Lemma fill_active_slots_returns t :
  ∃ t', gameOver.fill_active_slots t = (t', Ok tt).
Proof.
  destruct (decide (size (statusIndex "active" t) < 2)) as [Hlt|Hge].
  - destruct (fill_active_slots_spec t Hlt) as (t' & Hrun & _). by exists t'.
  - exists t. apply fill_active_slots_full. lia.
Qed.

Lemma seats_ok_fill_active_slots t :
  seats_ok t → seats_ok (gameOver.fill_active_slots t).1.
Proof.
  intros Hok. destruct (decide (size (statusIndex "active" t) < 2)) as [Hlt|Hge].
  - destruct (fill_active_slots_spec t Hlt) as (t' & -> & _ & _ & _ & Hok').
    by apply Hok'.
  - by rewrite fill_active_slots_full by lia.
Qed.

Lemma seats_ok_gameOver_handler event utcnow t :
  seats_ok t → seats_ok (gameOver.handler event utcnow t).1.
Proof.
  intros Hok.
  destruct (gameOver_handler_table event utcnow t)
    as [-> | (l & it & _ & Hk & ->)]; [done|].
  apply seats_ok_fill_active_slots, seats_ok_insert_other; [done|done|].
  simpl. eauto.
Qed.

(** ** The table after a departure *)

Lemma disconnect_fill_active_slots_table t :
  (disconnect.fill_active_slots t).1 = t.
Proof.
  unfold disconnect.fill_active_slots, bind.
  rewrite count_active_players_run. by case_decide.
Qed.

Lemma disconnect_handler_table event t :
  (disconnect.handler event t).1
  = delete (rc_connectionId (requestContext event)) t.
Proof.
  unfold disconnect.handler, try_except_ClientError, bind, table_get_item.
  destruct (t !! rc_connectionId (requestContext event)) as [it|] eqn:Hk; simpl.
  - case_decide; [|done].
    pose proof (disconnect_fill_active_slots_table
                  (delete (rc_connectionId (requestContext event)) t)) as Hfill.
    by destruct (disconnect.fill_active_slots _) as [t1 [[]|[code|name| |message]]];
      simpl in Hfill; subst t1.
  - by rewrite delete_id.
Qed.

Lemma seats_ok_fire t e : seats_ok t → seats_ok (fire t e).
Proof.
  intros Hok. destruct e as [event utcnow uuid4|event utcnow|event|event utcnow].
  - apply (seats_ok_step t (OnAdmit event utcnow uuid4) Hok).
  - apply (seats_ok_step t (OnQueueRequest event utcnow) Hok).
  - simpl. rewrite disconnect_handler_table. by apply seats_ok_delete.
  - by apply seats_ok_gameOver_handler.
Qed.

Lemma seats_ok_run_triggers es t : seats_ok t → seats_ok (foldl fire t es).
Proof.
  revert t. induction es as [|e es IH]; intros t Hok; simpl; [done|].
  by apply IH, seats_ok_fire.
Qed.

(** * Further theorems *)

(** X1.  Along every sequence of admissions, queue requests, departures
    ([disconnect.handler]) and game results ([gameOver.handler]) from the
    empty table, whether the handlers return or raise, at most two
    participants are active; two active participants hold [X] and [O]; a
    single active participant holds [X] or [O]. *)
Theorem seats_invariant_all_triggers (es : list Trigger) :
  size (active_set (run_triggers es)) ≤ 2 ∧
  (size (active_set (run_triggers es)) = 2 →
     ∃ k1 k2 a1 a2, k1 ≠ k2 ∧
       active_set (run_triggers es) = <[k1 := a1]> {[k2 := a2]} ∧
       marker a1 = Some "X" ∧ marker a2 = Some "O") ∧
  (size (active_set (run_triggers es)) = 1 →
     ∃ k a, active_set (run_triggers es) = {[k := a]} ∧
       (marker a = Some "X" ∨ marker a = Some "O")).
Proof.
  apply seats_ok_cases. unfold run_triggers.
  apply seats_ok_run_triggers, seats_ok_empty.
Qed.

Lemma seats_invariant_all_triggers_witness :
  size (active_set (run_triggers one_evening)) = 2 ∧
  ∃ k1 k2 a1 a2, k1 ≠ k2 ∧
    active_set (run_triggers one_evening) = <[k1 := a1]> {[k2 := a2]} ∧
    marker a1 = Some "X" ∧ marker a2 = Some "O".
Proof.
  split; [reflexivity|].
  apply (seats_invariant_all_triggers one_evening). reflexivity.
Defined.

(** X2.  [gameOver.handler] writes the loser's record and records of the
    waiting line only: a record that is neither the loser's nor inactive,
    such as the winner's, is left as it was, whatever the event and whether
    the handler returns or raises. *)
Theorem gameOver_leaves_other_seats event utcnow (t : Table) k :
  body_loserId event ≠ Some k →
  (∀ a, t !! k = Some a → status a ≠ "inactive") →
  (gameOver.handler event utcnow t).1 !! k = t !! k.
Proof.
  intros Hloser Hk.
  destruct (gameOver_handler_table event utcnow t)
    as [-> | (l & it & Hl & Hit & ->)]; [done|].
  assert (Hne : l ≠ k) by congruence.
  rewrite fill_active_slots_frame.
  - by apply lookup_insert_ne.
  - intros a. rewrite lookup_insert_ne by done. apply Hk.
Qed.

Lemma gameOver_leaves_other_seats_witness :
  (gameOver.handler (request "P1" (Some "P2")) "2024-05-01T11:00:00"
     two_waiting).1 !! "P1" = Some P1.
Proof.
  apply (gameOver_leaves_other_seats (request "P1" (Some "P2"))
           "2024-05-01T11:00:00" two_waiting "P1").
  - discriminate.
  - intros a Ha. assert (HP1 : two_waiting !! "P1" = Some P1) by reflexivity.
    assert (a = P1) as -> by congruence. discriminate.
Defined.

(** X3.  The promotion pass of [gameOver.py] always returns, and afterwards
    the number of active rows is the number before plus the number of
    waiting rows, capped at two: free seats are filled as far as the waiting
    line reaches, and with two seats taken nothing changes. *)
Theorem fill_active_slots_replenishes (t : Table) :
  size (statusIndex "active" t) ≤ 2 →
  ∃ t', gameOver.fill_active_slots t = (t', Ok tt) ∧
    size (statusIndex "active" t')
    = min 2 (size (statusIndex "active" t) + size (statusIndex "inactive" t)) ∧
    (size (statusIndex "active" t) = 2 → t' = t).
Proof.
  intros Hle. destruct (decide (size (statusIndex "active" t) < 2)) as [Hlt|Hge].
  - destruct (fill_active_slots_spec t Hlt) as (t' & Hrun & _ & _ & Hsz & _).
    exists t'. split; [done|]. rewrite Hsz, candidates_length. split; lia.
  - exists t. rewrite fill_active_slots_full by lia. split; [done|]. split; [lia|done].
Qed.

Lemma fill_active_slots_replenishes_witness :
  ∃ t', gameOver.fill_active_slots nobody_playing = (t', Ok tt) ∧
    size (statusIndex "active" t') = 2.
Proof.
  destruct (fill_active_slots_replenishes nobody_playing) as (t' & Hrun & Hsz & _).
  - vm_compute. lia.
  - exists t'. split; [exact Hrun|]. rewrite Hsz. reflexivity.
Defined.

(** X4.  The promotion pass of [gameOver.py] is idempotent: a second pass
    right after the first finds either both seats taken or nobody waiting,
    and leaves the table as it is. *)
Theorem fill_active_slots_idempotent (t t' : Table) :
  gameOver.fill_active_slots t = (t', Ok tt) →
  gameOver.fill_active_slots t' = (t', Ok tt).
Proof.
  intros Hrun.
  destruct (decide (size (statusIndex "active" t) < 2)) as [Hlt|Hge].
  2: { rewrite fill_active_slots_full in Hrun by lia. injection Hrun as <-.
       apply fill_active_slots_full. lia. }
  destruct (fill_active_slots_spec t Hlt) as (t2 & Hrun2 & Hframe & Hprom & Hsz & _).
  rewrite Hrun in Hrun2. injection Hrun2 as <-.
  destruct (decide (size (statusIndex "active" t') < 2)) as [Hlt'|Hge'].
  2: { apply fill_active_slots_full. lia. }
  apply fill_active_slots_none_waiting; [done|].
  assert (Hall : candidates t = statusIndex_rows "inactive" t).
  { unfold candidates. apply take_ge.
    rewrite candidates_length, <-statusIndex_rows_length in Hsz.
    rewrite statusIndex_rows_length in *. lia. }
  destruct (statusIndex_rows "inactive" t') as [|[k a] rest] eqn:Hrows'; [done|].
  exfalso.
  destruct (statusIndex_rows_lookup _ _ _ _ _ Hrows') as (Hk & Hs & Hj).
  destruct (decide (k ∈ (candidates t).*1)) as [Hin|Hout].
  - apply list_elem_of_fmap in Hin as ([k0 a0] & Heq & Hin). simpl in Heq. subst k0.
    destruct (Hprom k a0 Hin) as (m & Hk'). rewrite Hk in Hk'.
    injection Hk' as ->. done.
  - rewrite (Hframe k Hout) in Hk. apply Hout, list_elem_of_fmap.
    exists (k, a). split; [done|]. rewrite Hall.
    by apply elem_of_statusIndex_rows.
Qed.

Lemma fill_active_slots_idempotent_witness :
  gameOver.fill_active_slots
    (<["P4" := promoted P4 "O"]> (<["P3" := promoted P3 "X"]> nobody_playing))
  = (<["P4" := promoted P4 "O"]> (<["P3" := promoted P3 "X"]> nobody_playing),
     Ok tt).
Proof.
  apply (fill_active_slots_idempotent nobody_playing). reflexivity.
Defined.

(** X5.  The promotion pass of [gameOver.py] is first come, first served: a
    participant that it seats has a [joinedAt] no later than that of any
    participant it leaves waiting. *)
Theorem fill_active_slots_fifo (t t' : Table) k a a2 k' a' :
  gameOver.fill_active_slots t = (t', Ok tt) →
  t !! k = Some a → status a = "inactive" → is_Some (joinedAt a) →
  t' !! k = Some a2 → status a2 = "active" →
  t !! k' = Some a' → status a' = "inactive" → is_Some (joinedAt a') →
  t' !! k' = Some a' →
  String.leb (row_joinedAt (k, a)) (row_joinedAt (k', a')) = true.
Proof.
  intros Hrun Hk Hs Hj Hk2 Hs2 Hk' Hs' Hj' Hk2'.
  destruct (decide (size (statusIndex "active" t) < 2)) as [Hlt|Hge].
  2: { rewrite fill_active_slots_full in Hrun by lia. injection Hrun as <-.
       congruence. }
  destruct (fill_active_slots_spec t Hlt) as (t2 & Hrun2 & Hframe & Hprom & _).
  rewrite Hrun in Hrun2. injection Hrun2 as <-.
  set (n := 2 - size (statusIndex "active" t)).
  set (rows := statusIndex_rows "inactive" t).
  assert (Hin : (k, a) ∈ take n rows).
  { destruct (decide (k ∈ (candidates t).*1)) as [Hin|Hout].
    - apply list_elem_of_fmap in Hin as ([k0 a0] & Heq & Hin). simpl in Heq.
      subst k0. destruct (elem_of_candidates _ _ _ Hin) as (Hk0 & _).
      assert (a0 = a) as -> by congruence. done.
    - rewrite (Hframe k Hout) in Hk2. congruence. }
  assert (Hin' : (k', a') ∈ drop n rows).
  { assert (Hrows : (k', a') ∈ rows) by by apply elem_of_statusIndex_rows.
    rewrite <-(take_drop n rows) in Hrows.
    apply elem_of_app in Hrows as [Htake|Hdrop]; [|done].
    destruct (Hprom k' a' Htake) as (m & Hm). rewrite Hk2' in Hm.
    injection Hm as Hm. rewrite Hm in Hs'. done. }
  pose proof (stable_sort_StronglySorted row_joinedAt String.leb
                String.leb_total String_leb_trans
                (map_to_list (statusIndex "inactive" t))) as Hsorted.
  change (StronglySorted (key_le row_joinedAt String.leb) rows) in Hsorted.
  rewrite <-(take_drop n rows) in Hsorted.
  exact (StronglySorted_app_1_elem_of _ _ _ _ _ Hsorted Hin Hin').
Qed.

Lemma fill_active_slots_fifo_witness :
  String.leb (row_joinedAt ("P3", P3)) (row_joinedAt ("P4", P4)) = true.
Proof.
  apply (fill_active_slots_fifo
           {[ "P2" := P2; "P3" := P3; "P4" := P4 ]}
           (<["P3" := promoted P3 "X"]> {[ "P2" := P2; "P3" := P3; "P4" := P4 ]})
           "P3" P3 (promoted P3 "X") "P4" P4); try reflexivity; by eexists.
Defined.

(** X6.  [connection.handler] never seats anyone and writes no record but
    the new one: the active set and every other record are as before, and a
    fresh identifier gets an inactive record without a marker, stamped with
    the time of the call, together with one invocation of [joinQueue] and
    one of [sendInfo] for that connection. *)
Theorem connection_never_seats event utcnow uuid4 (t : Table) :
  active_set (connection.handler event utcnow uuid4 t).1 = active_set t ∧
  (∀ k, k ≠ rc_connectionId (requestContext event) →
     (connection.handler event utcnow uuid4 t).1 !! k = t !! k) ∧
  (t !! rc_connectionId (requestContext event) = None →
     (connection.handler event utcnow uuid4 t).1
       !! rc_connectionId (requestContext event)
     = Some {| sessionId := uuid4; status := "inactive"; marker := None;
               joinedAt := Some utcnow; username := None |} ∧
     ∃ resp p1 p2,
       (connection.handler event utcnow uuid4 t).2
       = Ok (resp, [ {| FunctionName := "joinQueue"; Payload := p1 |};
                     {| FunctionName := "sendInfo"; Payload := p2 |} ]) ∧
       statusCode resp = 200 ∧
       rc_connectionId (requestContext p1)
       = rc_connectionId (requestContext event) ∧
       rc_connectionId (requestContext p2)
       = rc_connectionId (requestContext event) ∧
       rc_sessionId (requestContext p1) = Some uuid4).
Proof.
  destruct (t !! rc_connectionId (requestContext event)) as [it|] eqn:Hk.
  - rewrite (connection_handler_existing _ _ _ _ _ Hk). done.
  - rewrite (connection_handler_fresh _ _ _ _ Hk). split; [|split].
    + rewrite active_set_insert_other by done.
      apply delete_id. apply eq_None_not_Some.
      intros [a [Ha _]%active_set_lookup]. congruence.
    + intros k Hne. by apply lookup_insert_ne.
    + intros _. split; [apply lookup_insert_eq|].
      unfold connection.handler, try_except_ClientError, bind,
        table_put_item_if_absent. rewrite Hk. simpl.
      rewrite get_marker_for_new_active_userr_run. simpl.
      by eexists _, _, _.
Qed.

(** X7.  [disconnect.handler] only deletes: the table it leaves is the table
    before without the departing record, for every table and event, so no
    waiting participant is ever seated by a departure.  It answers 200,
    except that [NameError] escapes exactly when the departing participant
    was active and fewer than two active rows remain. *)
Theorem disconnect_only_deletes event (t : Table) :
  (disconnect.handler event t).1
  = delete (rc_connectionId (requestContext event)) t ∧
  ((∃ resp, (disconnect.handler event t).2 = Ok resp ∧ statusCode resp = 200) ∨
   (disconnect.handler event t).2 = Raise (NameError "Key")) ∧
  ((disconnect.handler event t).2 = Raise (NameError "Key") ↔
   ∃ it, t !! rc_connectionId (requestContext event) = Some it ∧
     status it = "active" ∧
     size (statusIndex "active"
             (delete (rc_connectionId (requestContext event)) t)) < 2).
Proof.
  split; [apply disconnect_handler_table|].
  set (cid := rc_connectionId (requestContext event)).
  destruct (t !! cid) as [it|] eqn:Hk.
  - destruct (decide (status it = "active")) as [Hs|Hs].
    + destruct (decide (size (statusIndex "active" (delete cid t)) < 2))
        as [Hlt|Hge].
      * rewrite (disconnect_handler_active event t it Hk Hs Hlt). simpl.
        split; [by right|]. split; [|done]. intros _. by exists it.
      * assert (Hrun : disconnect.handler event t
                       = (delete cid t,
                          Ok {| statusCode := 200;
                                body := MessageFor "Disconnected" cid |})).
        { unfold disconnect.handler, try_except_ClientError, bind,
            table_get_item. fold cid. rewrite Hk. simpl.
          rewrite decide_True by done.
          unfold disconnect.fill_active_slots, bind.
          rewrite count_active_players_run. by rewrite decide_True by lia. }
        rewrite Hrun. simpl. split; [left; by eexists|].
        split; [done|]. intros (it' & _ & _ & Hlt). lia.
    + rewrite (disconnect_handler_inactive event t it Hk Hs). simpl.
      split; [left; by eexists|]. split; [done|].
      intros (it' & Hit' & Hs' & _). congruence.
  - rewrite (disconnect_handler_missing event t Hk). simpl.
    split; [left; by eexists|]. split; [done|].
    intros (it' & Hit' & _). congruence.
Qed.

(** X8.  [updateDB.lambda_handler], when it leaves a table, has changed no
    [sessionId], [status], [marker] or [joinedAt] and has added or removed
    no record; when it returns the written attribute, the named record
    carries the new user name. *)
Theorem updateDB_keeps_matchmaking event (t t' : Table) r :
  updateDB.lambda_handler event t = updateDB.Finished t' r →
  (∀ k, matchmaking_fields <$> t' !! k = matchmaking_fields <$> t !! k) ∧
  (∀ u, r = Ok (updateDB.Attributes u) →
     ∃ cid it, updateDB.ev_connectionId event = Some cid ∧
       updateDB.ev_username event = Some u ∧
       t !! cid = Some it ∧ t' !! cid = Some (updateDB.set_username it u)).
Proof.
  unfold updateDB.lambda_handler. intros Hrun.
  destruct (updateDB.ev_username event) as [u|]; [|by simplify_eq].
  destruct (updateDB.ev_connectionId event) as [cid|]; [|by simplify_eq].
  case_decide; [by simplify_eq|].
  destruct (t !! cid) as [it|] eqn:Hk; [|done]. simplify_eq. split.
  - intros k. destruct (decide (k = cid)) as [->|Hne].
    + by rewrite lookup_insert_eq, Hk.
    + by rewrite lookup_insert_ne.
  - intros u' [= <-]. exists cid, it. by rewrite lookup_insert_eq.
Qed.

Lemma updateDB_keeps_matchmaking_witness :
  matchmaking_fields <$>
    (<["P1" := updateDB.set_username P1 "ada"]> one_waiting) !! "P1"
  = matchmaking_fields <$> one_waiting !! "P1".
Proof.
  apply (updateDB_keeps_matchmaking
           {| updateDB.ev_username := Some "ada";
              updateDB.ev_connectionId := Some "P1" |}
           one_waiting _ (Ok (updateDB.Attributes "ada"))).
  reflexivity.
Defined.

(** X9.  A snapshot that [_get_live_queue_data] returns is stable: the
    records whose [joinedAt] parse to one and the same time, and so all the
    records that fall back to [datetime.min], appear in it in the order of
    the scan. *)
Theorem get_live_queue_data_stable fromisoformat (t t' : Table) l
    (d : streamDB.datetime) :
  streamDB._get_live_queue_data fromisoformat t = (t', Ok l) →
  filter (λ r, streamDB.parse_joined_at fromisoformat r = d) l
  = filter (λ r, streamDB.parse_joined_at fromisoformat r = d)
      (map_to_list t).
Proof.
  rewrite get_live_queue_data_run. intros Hrun.
  destruct (streamDB.comparable
              (streamDB.parse_joined_at fromisoformat <$> map_to_list t))
    eqn:Hc.
  - rewrite (sorted_run _ _ Hc) in Hrun. injection Hrun as _ <-.
    apply stable_sort_filter_key, datetime_leb_refl.
  - by rewrite (sorted_raises _ _ Hc) in Hrun.
Qed.

Lemma get_live_queue_data_stable_witness :
  filter (λ r, streamDB.parse_joined_at streamDB.fromisoformat_text r
               = streamDB.aware 63850154400000000)
    [("A", P7); ("B", P8)]
  = filter (λ r, streamDB.parse_joined_at streamDB.fromisoformat_text r
                 = streamDB.aware 63850154400000000)
      (map_to_list stamped_offsets).
Proof.
  apply (get_live_queue_data_stable streamDB.fromisoformat_text
           stamped_offsets stamped_offsets).
  reflexivity.
Defined.

(** [replace] takes out every [Z], wherever it stands. *)
Lemma replace_Z_app s1 s2 :
  streamDB.replace_Z (s1 +:+ s2)
  = streamDB.replace_Z s1 +:+ streamDB.replace_Z s2.
Proof.
  induction s1 as [|c s1 IH]; simpl; [done|].
  rewrite IH. by destruct (Ascii.eqb c "Z").
Qed.

(** X10.  A [Z] in a [joinedAt], at the end as in a UTC stamp or anywhere
    else, does not count for the order of the snapshot: the record has the
    sort key of the same text without that [Z]. *)
Theorem parse_joined_at_ignores_Z fromisoformat (r1 r2 : Row) s1 s2 :
  joinedAt r1.2 = Some (s1 +:+ "Z" +:+ s2) →
  joinedAt r2.2 = Some (s1 +:+ s2) →
  streamDB.parse_joined_at fromisoformat r1
  = streamDB.parse_joined_at fromisoformat r2.
Proof.
  intros H1 H2. unfold streamDB.parse_joined_at. rewrite H1, H2. simpl.
  by rewrite !replace_Z_app.
Qed.

Lemma parse_joined_at_ignores_Z_witness :
  streamDB.parse_joined_at streamDB.fromisoformat_text
    ("P9", participant "s-9" "inactive" None "2024-05-01T10:00:00Z")
  = streamDB.parse_joined_at streamDB.fromisoformat_text ("P1", P1).
Proof.
  apply (parse_joined_at_ignores_Z streamDB.fromisoformat_text
           ("P9", participant "s-9" "inactive" None "2024-05-01T10:00:00Z")
           ("P1", P1) "2024-05-01T10:00:00" ""); reflexivity.
Defined.

(** X11.  A participant that [joinQueue.handler] queues, at a time later
    than the join times of those already waiting, stands at the back of the
    waiting line: it is the last row of the status index for [inactive]. *)
Theorem joinQueue_queues_at_the_back event utcnow (t : Table) it :
  t !! rc_connectionId (requestContext event) = Some it →
  2 ≤ size (statusIndex "active" t) →
  (∀ k a ts, k ≠ rc_connectionId (requestContext event) →
     t !! k = Some a → status a = "inactive" → joinedAt a = Some ts →
     String.ltb ts utcnow = true) →
  last (statusIndex_rows "inactive" (joinQueue.handler event utcnow t).1)
  = Some (rc_connectionId (requestContext event),
          {| sessionId := sessionId it; status := "inactive"; marker := None;
             joinedAt := Some utcnow; username := username it |}).
Proof.
  intros Hk Hge Hearlier.
  rewrite (joinQueue_handler_queued event utcnow t it Hk Hge). simpl.
  set (cid := rc_connectionId (requestContext event)) in *.
  set (t' := <[cid := queued it utcnow]> t).
  set (rows := statusIndex_rows "inactive" t').
  assert (Hin : (cid, queued it utcnow) ∈ rows).
  { apply elem_of_statusIndex_rows. unfold t'. rewrite lookup_insert_eq.
    simpl. eauto. }
  apply list_elem_of_split in Hin as (l1 & l2 & Hsplit).
  destruct l2 as [|[k a] l2].
  { change (last rows = Some (cid, queued it utcnow)).
    rewrite Hsplit. apply last_snoc. }
  exfalso.
  pose proof (stable_sort_StronglySorted row_joinedAt String.leb
                String.leb_total String_leb_trans
                (map_to_list (statusIndex "inactive" t'))) as Hsorted.
  change (StronglySorted (key_le row_joinedAt String.leb) rows) in Hsorted.
  pose proof (statusIndex_rows_NoDup "inactive" t') as Hnd.
  fold rows in Hnd. rewrite Hsplit in Hsorted, Hnd.
  apply StronglySorted_app in Hsorted as (_ & _ & Hsorted).
  apply StronglySorted_inv in Hsorted as [_ Hall].
  apply Forall_cons in Hall as [Hle _].
  rewrite fmap_app in Hnd. apply NoDup_app in Hnd as (_ & _ & Hnd).
  simpl in Hnd. apply NoDup_cons in Hnd as [Hne _].
  assert (Hkc : k ≠ cid) by set_solver.
  assert (Hka : (k, a) ∈ rows). { rewrite Hsplit. set_solver. }
  apply elem_of_statusIndex_rows in Hka as (Hlk & Hs & [ts Hts]).
  unfold t' in Hlk. rewrite lookup_insert_ne in Hlk by done.
  pose proof (Hearlier k a ts Hkc Hlk Hs Hts) as Hlt.
  apply String_ltb_not_leb in Hlt.
  unfold key_le, row_joinedAt in Hle. simpl in Hle. rewrite Hts in Hle.
  simpl in Hle. congruence.
Qed.

Lemma joinQueue_queues_at_the_back_witness :
  last (statusIndex_rows "inactive"
          (joinQueue.handler (request "P3" None) "2024-05-01T11:00:00"
             two_waiting).1)
  = Some ("P3", participant "s-3" "inactive" None "2024-05-01T11:00:00").
Proof.
  apply (joinQueue_queues_at_the_back (request "P3" None)
           "2024-05-01T11:00:00" two_waiting P3).
  - reflexivity.
  - vm_compute. lia.
  - intros k a ts Hne Hk Hs Hts.
    assert (Hin : (k, a) ∈ map_to_list two_waiting)
      by by apply elem_of_map_to_list.
    vm_compute in Hin.
    repeat (apply elem_of_cons in Hin as [Hin|Hin];
            [injection Hin as -> ->; try done;
             try (injection Hts as <-; reflexivity)|]).
    by apply elem_of_nil in Hin.
Defined.
